(** * homework_bot: the polling and notification loop of [homework.py]

    A shallow embedding of [homework.py] (a Telegram bot that polls the
    Practicum homework-status API) and the properties of its functions
    [send_message], [get_api_answer], [check_response], [parse_status],
    [check_tokens] and [main].

    Python values are the values [response.json()] can produce. The two
    libraries the program calls ([requests], [telegram]) are an environment
    that fixes, for every loop iteration, what the HTTP request and the bot
    call do. Logging, the HTTP request, the bot call and [time.sleep] are
    recorded as events, in program order. *)

From Stdlib Require Import String Ascii List ZArith Bool Lia Floats.
Import ListNotations.
Open Scope string_scope.
Open Scope list_scope.

(** String concatenation, as Python's [+] on [str] and the pieces of an
    f-string. *)
Infix "+++" := String.append (right associativity, at level 60).

Set Warnings "-register-all".

(** ** Python values *)

(** What [json.loads] returns: [None], [bool], [int], [float], [str],
    [list], and [dict] with [str] keys. A [dict] is kept as the list of its
    items in insertion order (the order [repr] and [items()] show); a key is
    looked up from the front. *)
Inductive pyval : Type :=
| PyNone
| PyBool (b : bool)
| PyInt (z : Z)
| PyFloat (f : float)
| PyStr (s : string)
| PyList (l : list pyval)
| PyDict (d : list (string * pyval)).

(** [bool(v)], as [if v], [v or w] and [not v] use it. *)
Definition truthy (v : pyval) : bool :=
  match v with
  | PyNone => false
  | PyBool b => b
  | PyInt z => negb (z =? 0)%Z
  | PyFloat f => negb (PrimFloat.eqb f PrimFloat.zero)
  | PyStr s => negb (s =? "")
  | PyList l => match l with [] => false | _ => true end
  | PyDict d => match d with [] => false | _ => true end
  end.

(** [a or b]: [a] when it is truthy, else [b]. *)
Definition py_or (a b : pyval) : pyval := if truthy a then a else b.

(** Values with a [__hash__]: everything but [list] and [dict]. *)
Definition hashable (v : pyval) : bool :=
  match v with
  | PyList _ | PyDict _ => false
  | _ => true
  end.

(** [d.get(k)] on the items of a dict. *)
Fixpoint lookup {V : Type} (k : string) (d : list (string * V)) : option V :=
  match d with
  | [] => None
  | (k', v) :: d' => if k =? k' then Some v else lookup k d'
  end.

(** [needle in s] for two strings: [needle] occurs in [s]. *)
Fixpoint occurs_in (needle s : string) : bool :=
  prefix needle s ||
  match s with
  | EmptyString => false
  | String _ s' => occurs_in needle s'
  end.

Definition is_str (k : string) (v : pyval) : bool :=
  match v with
  | PyStr s => s =? k
  | _ => false
  end.

(** The double quote, written by its code. *)
Definition dq : string := String "034"%char EmptyString.

(** ** Exceptions, events and effects *)

(** Errors the interpreter raises by itself; their texts depend on the
    Python version and are left to the runtime (see [fault_text] below). *)
Inductive fault : Type :=
| NotIterable (v : pyval)
| NotSubscriptable (v : pyval)
| BadSubscript (container : pyval) (key : string)
| Unhashable (v : pyval)
| NoAttribute (v : pyval) (attr : string).

(** Modelled from the spec: the module [exceptions] of the repository, which
    declares [APIAnswerError] and [SendMessageError], is not among the source
    files. Both are taken as plain subclasses of [Exception], unrelated to each
    other and to the built-in kinds, whose [str] is the message they were
    built with. The other constructors are built-in kinds: [KeyError] carries
    its argument, as [str] of a [KeyError] is the [repr] of the argument. *)
Inductive exn : Type :=
| APIAnswerError (msg : string)
| SendMessageError (msg : string)
| TypeError (msg : string)
| KeyError (arg : pyval)
| AttributeError (msg : string)
| JSONDecodeError (msg : string).

Definition is_SendMessageError (e : exn) : bool :=
  match e with SendMessageError _ => true | _ => false end.

Definition is_KeyError (e : exn) : bool :=
  match e with KeyError _ => true | _ => false end.

Inductive level : Type := DEBUG | ERROR | CRITICAL.

(** What the program does to the outside, in program order. *)
Inductive event : Type :=
| EvLog (lvl : level) (msg : string)
| EvGet (url : string) (authorization : string) (params : list (string * pyval))
| EvSend (chat_id : option string) (text : string)
| EvSleep (seconds : Z).

Inductive result (A : Type) : Type :=
| Ok (a : A)
| Raise (e : exn).
Arguments Ok {A} a.
Arguments Raise {A} e.

(** A computation that emits events and returns or raises. *)
Definition Eff (A : Type) : Type := list event * result A.

Definition ret {A} (a : A) : Eff A := ([], Ok a).
Definition raise {A} (e : exn) : Eff A := ([], Raise e).
Definition emit (ev : event) : Eff unit := ([ev], Ok tt).

Definition bind {A B} (c : Eff A) (k : A -> Eff B) : Eff B :=
  match c with
  | (tr, Ok a) => let '(tr', r) := k a in (tr ++ tr', r)
  | (tr, Raise e) => (tr, Raise e)
  end.

Notation "x <- c ;; k" := (bind c (fun x => k))
  (at level 61, c at next level, right associativity).
Notation "c ;; k" := (bind c (fun _ => k))
  (at level 61, right associativity).

Module logging.
Definition debug (msg : string) : Eff unit := emit (EvLog DEBUG msg).
Definition error (msg : string) : Eff unit := emit (EvLog ERROR msg).
Definition critical (msg : string) : Eff unit := emit (EvLog CRITICAL msg).
End logging.

(** ** Configuration and environment *)

(** The three [os.getenv] results read when the module is loaded. *)
Record config : Type := {
  PRACTICUM_TOKEN : option string;
  TELEGRAM_TOKEN : option string;
  TELEGRAM_CHAT_ID : option string
}.

(** What [requests.get] does: it raises a [RequestException], or returns a
    response with a status code whose [json()] either raises with a text or
    returns a value. *)
Inductive http_outcome : Type :=
| RequestException
| Response (status_code : Z) (json : string + pyval).

(** What [bot.send_message] does: it returns, or raises a [TelegramError]
    (the base class of the library's errors). *)
Inductive tg_outcome : Type :=
| Delivered
| TelegramError.

(** The environment of one loop iteration. An iteration calls
    [requests.get] once and [bot.send_message] at most once. *)
Record env : Type := {
  now : Z;
  http : http_outcome;
  tg : tg_outcome
}.

Definition RETRY_PERIOD : Z := 600.
Definition ENDPOINT : string :=
  "https://practicum.yandex.ru/api/user_api/homework_statuses/".

Definition HOMEWORK_VERDICTS : list (string * string) :=
  [ ("approved", "Работа проверена: ревьюеру всё понравилось. Ура!");
    ("reviewing", "Работа взята на проверку ревьюером.");
    ("rejected", "Работа проверена: у ревьюера есть замечания.") ].

(** ** The program *)

Section Program.

Set Default Proof Using "Type".

(** [repr(v)] of a value and the texts of the interpreter's own errors are
    the runtime's: every statement below holds whatever they are. *)
Variable repr : pyval -> string.
Variable fault_text : fault -> string.

(** [str(v)], which an f-string field [{v}] inserts. *)
Definition py_str (v : pyval) : string :=
  match v with
  | PyStr s => s
  | _ => repr v
  end.

(** [str(error)], which [f'{error}'] inserts. *)
Definition exn_str (e : exn) : string :=
  match e with
  | APIAnswerError msg => msg
  | SendMessageError msg => msg
  | TypeError msg => msg
  | KeyError arg => repr arg
  | AttributeError msg => msg
  | JSONDecodeError msg => msg
  end.

Definition fault_exn (f : fault) : exn :=
  match f with
  | NoAttribute _ _ => AttributeError (fault_text f)
  | _ => TypeError (fault_text f)
  end.

Definition interp {A} (r : fault + A) : Eff A :=
  match r with
  | inl f => raise (fault_exn f)
  | inr a => ret a
  end.

(** [a or b] on two [str]. *)
Definition str_or (a b : string) : string := if a =? "" then b else a.

(** [k in c] for a [str] [k]. *)
Definition contains (k : string) (c : pyval) : fault + bool :=
  match c with
  | PyDict d => inr (match lookup k d with Some _ => true | None => false end)
  | PyList l => inr (existsb (is_str k) l)
  | PyStr s => inr (occurs_in k s)
  | _ => inl (NotIterable c)
  end.

(** [c[k]] for a [str] [k]. *)
Definition subscript (c : pyval) (k : string) : Eff pyval :=
  match c with
  | PyDict d =>
      match lookup k d with
      | Some v => ret v
      | None => raise (KeyError (PyStr k))
      end
  | PyStr _ | PyList _ => raise (fault_exn (BadSubscript c k))
  | _ => raise (fault_exn (NotSubscriptable c))
  end.

(** [v in HOMEWORK_VERDICTS]: the keys are [str], so only a [str] can be
    found; a [list] or [dict] cannot be hashed. *)
Definition in_verdicts (v : pyval) : fault + bool :=
  if hashable v then
    inr (match v with
         | PyStr s => match lookup s HOMEWORK_VERDICTS with
                      | Some _ => true
                      | None => false
                      end
         | _ => false
         end)
  else inl (Unhashable v).

(** [HOMEWORK_VERDICTS[v]]. *)
Definition verdict_of (v : pyval) : Eff string :=
  if hashable v then
    match v with
    | PyStr s => match lookup s HOMEWORK_VERDICTS with
                 | Some verdict => ret verdict
                 | None => raise (KeyError v)
                 end
    | _ => raise (KeyError v)
    end
  else raise (fault_exn (Unhashable v)).

(** [response.get(k, default)]. *)
Definition get (response : pyval) (k : string) (default : pyval)
  : Eff pyval :=
  match response with
  | PyDict d => ret (match lookup k d with Some v => v | None => default end)
  | _ => raise (fault_exn (NoAttribute response "get"))
  end.

Variable cfg : config.

Definition HEADERS : string :=
  "OAuth " +++ match PRACTICUM_TOKEN cfg with
               | Some token => token
               | None => "None"
               end.

Definition send_failed : string := "Сбой при отправке сообщения в Telegram".

Definition send_message (e : env) (message : string) : Eff unit :=
  logging.debug ("Попытка отправть сообщение - " +++ message) ;;
  emit (EvSend (TELEGRAM_CHAT_ID cfg) message) ;;
  match tg e with
  | Delivered => logging.debug "Сообщение отправлено"
  | TelegramError =>
      let message_error := send_failed in
      logging.error message_error ;;
      raise (SendMessageError message_error)
  end.

Definition get_api_answer (e : env) (current_timestamp : pyval)
  : Eff pyval :=
  let timestamp := py_or current_timestamp (PyInt (now e)) in
  let params := [("from_date", timestamp)] in
  emit (EvGet ENDPOINT HEADERS params) ;;
  match http e with
  | RequestException =>
      let message_error :=
        "Ошибка при запросе к эндпоинту: " +++ ENDPOINT +++ ","
        +++ "параметры запроса: " +++ repr (PyDict params) in
      logging.error message_error ;;
      raise (APIAnswerError message_error)
  | Response status_code json =>
      if negb (status_code =? 200)%Z then
        let message_error :=
          "Ответ от эндпоинта отличный от 200"
          +++ "Эндпоинт: " +++ ENDPOINT +++ ", Параметры: "
          +++ repr (PyDict params) +++ ","
          +++ "Ответ: " +++ repr (PyInt status_code) in
        logging.error message_error ;;
        raise (APIAnswerError message_error)
      else
        match json with
        | inl text => raise (JSONDecodeError text)
        | inr body => ret body
        end
  end.

Definition check_response (response : pyval) : Eff (list pyval) :=
  match response with
  | PyDict d =>
      match lookup "homeworks" d with
      | None =>
          let message_error :=
            "Отсутствует ключ homeworks в ответе API: "
            +++ py_str response in
          logging.error message_error ;;
          raise (KeyError (PyStr message_error))
      | Some (PyList homeworks) =>
          match homeworks with
          | [] => logging.debug "Нет новых статусов домашек"
          | _ :: _ => ret tt
          end ;;
          ret homeworks
      | Some _ =>
          let message_error :=
            "Тип ответа API - не список: " +++ py_str response in
          logging.error message_error ;;
          raise (TypeError message_error)
      end
  | _ =>
      let message_error :=
        "Тип ответа API - не словарь: " +++ py_str response in
      logging.error message_error ;;
      raise (TypeError message_error)
  end.

Definition missing_keys : string :=
  "Отсутству необходимые ключи" +++ " " +++ dq +++ "homework_name" +++ dq
  +++ ", " +++ dq +++ "status" +++ dq.

Definition unknown_status : string :=
  "Недокументированный статус домашней работы обнаружен"
  +++ " в ответе API".

(** The first [if] of [parse_status], on the keys. *)
Definition keys_guard (homework : pyval) : Eff unit :=
  present <- interp (contains (str_or "homework_name" "status") homework) ;;
  if negb present then
    let message_error := missing_keys in
    logging.error message_error ;;
    raise (KeyError (PyStr message_error))
  else ret tt.

(** The second [if] of [parse_status], on the status. *)
Definition status_guard (homework_status : pyval) : Eff unit :=
  known <- interp (in_verdicts homework_status) ;;
  if negb known then
    let message_error := unknown_status in
    logging.error message_error ;;
    raise (KeyError (PyStr message_error))
  else ret tt.

Definition parse_status (homework : pyval) : Eff string :=
  keys_guard homework ;;
  homework_name <- subscript homework "homework_name" ;;
  homework_status <- subscript homework "status" ;;
  status_guard homework_status ;;
  verdict <- verdict_of homework_status ;;
  ret ("Изменился статус проверки работы " +++ dq
       +++ py_str homework_name +++ dq +++ ". " +++ verdict).

Definition is_None {A} (o : option A) : bool :=
  match o with None => true | Some _ => false end.

Definition check_tokens : Eff bool :=
  let env_vars :=
    [ ("PRACTICUM_TOKEN", PRACTICUM_TOKEN cfg);
      ("TELEGRAM_TOKEN", TELEGRAM_TOKEN cfg);
      ("TELEGRAM_CHAT_ID", TELEGRAM_CHAT_ID cfg) ] in
  let none_env_vars :=
    map fst (filter (fun item => is_None (snd item)) env_vars) in
  match none_env_vars with
  | _ :: _ =>
      logging.critical
        ("Отсутствие обязательных переменных окружения во "
         +++ "время запуска бота: " +++ String.concat ", " none_env_vars) ;;
      ret false
  | [] => ret true
  end.

(** ** The loop of [main] *)

(** The two variables of [main] that live across iterations. *)
Record loop_state : Type := {
  current_timestamp : pyval;
  prev_message : string
}.

(** A computation inside the loop: it also reads and assigns the two
    variables, and an assignment made before an exception is raised
    stays. *)
Definition Loop (A : Type) : Type :=
  loop_state -> list event * loop_state * result A.

Definition retL {A} (a : A) : Loop A := fun st => ([], st, Ok a).

Definition lift {A} (c : Eff A) : Loop A :=
  fun st => let '(tr, r) := c in (tr, st, r).

Definition bindL {A B} (c : Loop A) (k : A -> Loop B) : Loop B :=
  fun st =>
    match c st with
    | (tr, st', Ok a) => let '(tr', st'', r) := k a st' in (tr ++ tr', st'', r)
    | (tr, st', Raise e) => (tr, st', Raise e)
    end.

Definition read_state : Loop loop_state := fun st => ([], st, Ok st).

Definition set_current_timestamp (v : pyval) : Loop unit :=
  fun st =>
    ([], {| current_timestamp := v; prev_message := prev_message st |}, Ok tt).

Definition set_prev_message (m : string) : Loop unit :=
  fun st =>
    ([], {| current_timestamp := current_timestamp st; prev_message := m |},
     Ok tt).

(** [try: body  except Exception as error: handler error]. *)
Definition try_except {A} (body : Loop A) (handler : exn -> Loop A)
  : Loop A :=
  fun st =>
    match body st with
    | (tr, st', Ok a) => (tr, st', Ok a)
    | (tr, st', Raise e) =>
        let '(tr', st'', r) := handler e st' in (tr ++ tr', st'', r)
    end.

(** [try: body  finally: final], for a [final] that does not raise. *)
Definition try_finally {A} (body : Loop A) (final : Loop unit) : Loop A :=
  fun st =>
    let '(tr, st', r) := body st in
    match final st' with
    | (tr', st'', Ok _) => (tr ++ tr', st'', r)
    | (tr', st'', Raise e) => (tr ++ tr', st'', Raise e)
    end.

Notation "x <~ c ;; k" := (bindL c (fun x => k))
  (at level 61, c at next level, right associativity).
Notation "c ;;; k" := (bindL c (fun _ => k))
  (at level 61, right associativity).

(** The body of [try:] in the loop. *)
Definition try_block (e : env) : Loop unit :=
  st <~ read_state ;;
  response <~ lift (get_api_answer e (current_timestamp st)) ;;
  homeworks <~ lift (check_response response) ;;
  new_timestamp <~ lift (get response "current_date" (current_timestamp st)) ;;
  set_current_timestamp new_timestamp ;;;
  match homeworks with
  | first :: _ =>
      message <~ lift (parse_status first) ;;
      st <~ read_state ;;
      if negb (message =? prev_message st) then
        set_prev_message message ;;;
        lift (send_message e message)
      else retL tt
  | [] => retL tt
  end.

(** The two [except] clauses. *)
Definition handler (e : env) (error : exn) : Loop unit :=
  if is_SendMessageError error then
    lift (logging.error "Сбой при отправке сообщения в Telegram")
  else
    let message := "Сбой в работе программы: " +++ exn_str error in
    st <~ read_state ;;
    if negb (message =? prev_message st) then
      set_prev_message message ;;;
      lift (logging.error message) ;;;
      lift (send_message e message)
    else retL tt.

(** One pass through the body of [while True]. *)
Definition iteration (e : env) : Loop unit :=
  try_finally
    (try_except (try_block e) (handler e))
    (lift (emit (EvSleep RETRY_PERIOD))).

(** The loop over the environments of its first iterations: it stops
    early, with the exception, when an iteration lets one escape. *)
Fixpoint loop (envs : list env) (st : loop_state)
  : list event * loop_state * option exn :=
  match envs with
  | [] => ([], st, None)
  | e :: envs' =>
      match iteration e st with
      | (tr, st', Ok _) =>
          let '(tr', st'', r) := loop envs' st' in (tr ++ tr', st'', r)
      | (tr, st', Raise err) => (tr, st', Some err)
      end
  end.

(** How a run of [main] stands after the given iterations: ended by
    [sys.exit(msg)]; ended by the [InvalidToken] that [telegram.Bot] raised,
    before the loop; ended by an exception that escaped the loop; or still
    in the loop. *)
Inductive outcome : Type :=
| Exited (msg : string)
| InvalidToken
| Crashed (err : exn) (st : loop_state)
| Running (st : loop_state).

(** Whether [telegram.Bot(token=...)] accepts the token; it raises
    [InvalidToken] on one it does not. The test is the library's. *)
Variable bot_accepts : string -> bool.

(** [tauto], kept from drawing the token test into proofs that do not
    concern it. *)
Ltac propositional := try clear bot_accepts; tauto.

Definition initial_state (startup_time : Z) : loop_state :=
  {| current_timestamp := PyInt startup_time; prev_message := "" |}.

(** [main()], with [int(time.time())] at startup and the environments of
    the iterations. [sys.exit(msg)] ends the process with [msg]; then the
    bot is built, which ends the process when the library refuses the
    token; then the cursor is read from the clock and the loop starts.
    (After [check_tokens] returned [True] the token is a string.) *)
Definition main (startup_time : Z) (envs : list env)
  : list event * outcome :=
  match check_tokens with
  | (tr, Ok true) =>
      match TELEGRAM_TOKEN cfg with
      | Some token =>
          if bot_accepts token then
            let '(tr', st, r) := loop envs (initial_state startup_time) in
            (tr ++ tr',
             match r with
             | None => Running st
             | Some err => Crashed err st
             end)
          else (tr, InvalidToken)
      | None => (tr, InvalidToken)
      end
  | (tr, Ok false) => (tr, Exited "Проверьте, заданы ли все токены")
  | (tr, Raise err) => (tr, Crashed err (initial_state startup_time))
  end.

(** ** Observations on a trace *)

(** The texts handed to [bot.send_message], in order. *)
Fixpoint notified (tr : list event) : list string :=
  match tr with
  | [] => []
  | EvSend _ text :: tr' => text :: notified tr'
  | _ :: tr' => notified tr'
  end.

(** The [from_date] parameters of the requests, in order. *)
Fixpoint requested (tr : list event) : list (option pyval) :=
  match tr with
  | [] => []
  | EvGet _ _ params :: tr' => lookup "from_date" params :: requested tr'
  | _ :: tr' => requested tr'
  end.

(** ** Vocabulary of the properties *)

Definition trace_of {A} (x : list event * loop_state * A) : list event :=
  fst (fst x).
Definition state_of {A} (x : list event * loop_state * A) : loop_state :=
  snd (fst x).
Definition result_of {A} (x : list event * loop_state * A) : A := snd x.

(** The three status codes of the verdict table. *)
Definition verdict_codes : list string := ["approved"; "reviewing"; "rejected"].

(** [telegram.Bot(token=TELEGRAM_TOKEN)] returns a bot. *)
Definition bot_built : Prop :=
  exists token, TELEGRAM_TOKEN cfg = Some token /\ bot_accepts token = true.

(** One of the three variables is unset. *)
Definition some_absent : Prop :=
  PRACTICUM_TOKEN cfg = None \/ TELEGRAM_TOKEN cfg = None
  \/ TELEGRAM_CHAT_ID cfg = None.

(** The part of the [try] body before the comparison with [prev_message]:
    it returns the status message it formed, if there was a homework. *)
Definition poll (e : env) : Loop (option string) :=
  st <~ read_state ;;
  response <~ lift (get_api_answer e (current_timestamp st)) ;;
  homeworks <~ lift (check_response response) ;;
  new_timestamp <~ lift (get response "current_date" (current_timestamp st)) ;;
  set_current_timestamp new_timestamp ;;;
  match homeworks with
  | first :: _ => message <~ lift (parse_status first) ;; retL (Some message)
  | [] => retL None
  end.

(** The message an iteration compares with [prev_message]: the status
    message of the first homework, or the error message when the part
    before the comparison raised; none when there was no homework. *)
Definition formed (e : env) (st : loop_state) : option string :=
  match poll e st with
  | (_, _, Ok message) => message
  | (_, _, Raise error) => Some ("Сбой в работе программы: " +++ exn_str error)
  end.

(** The [current_date] of a response that was fetched with status 200 and
    passed [check_response]. *)
Definition supplied_date (e : env) : option pyval :=
  match http e with
  | Response status_code (inr (PyDict d)) =>
      if (status_code =? 200)%Z then
        match lookup "homeworks" d with
        | Some (PyList _) => lookup "current_date" d
        | _ => None
        end
      else None
  | _ => None
  end.

(** No two neighbours of the list are equal. *)
Fixpoint stutter_free (l : list string) : Prop :=
  match l with
  | a :: (b :: _) as l' => a <> b /\ stutter_free l'
  | _ => True
  end.

(** A computation that neither calls the bot nor the API, and does not
    raise [SendMessageError]. *)
Definition silent {A} (c : Eff A) : Prop :=
  notified (fst c) = [] /\ requested (fst c) = []
  /\ forall err, snd c = Raise err -> is_SendMessageError err = false.

(** The text of an error notification. *)
Definition failure_message (error : exn) : string :=
  "Сбой в работе программы: " +++ exn_str error.

(** The lengths of the sleeps, in order. *)
Fixpoint slept (tr : list event) : list Z :=
  match tr with
  | [] => []
  | EvSleep seconds :: tr' => seconds :: slept tr'
  | _ :: tr' => slept tr'
  end.

Definition is_log (ev : event) : bool :=
  match ev with EvLog _ _ => true | _ => false end.

(** A computation that does nothing to the outside but logging. *)
Definition logs_only {A} (c : Eff A) : Prop := forallb is_log (fst c) = true.

(** Where the requests went and with which [Authorization], in order. *)
Fixpoint requests_to (tr : list event) : list (string * string) :=
  match tr with
  | [] => []
  | EvGet url authorization _ :: tr' => (url, authorization) :: requests_to tr'
  | _ :: tr' => requests_to tr'
  end.

(** ** Concrete inputs *)

(** A runtime to evaluate the program with: placeholders stand for the
    texts of [repr] and of the interpreter's errors. *)
Definition sample_repr (v : pyval) : string := "<repr>".
Definition sample_fault_text (f : fault) : string := "<fault>".

Definition is_space (c : ascii) : bool :=
  let n := nat_of_ascii c in
  (Nat.leb 9 n && Nat.leb n 13) || Nat.eqb n 32.

Definition is_digit (c : ascii) : bool :=
  let n := nat_of_ascii c in Nat.leb 48 n && Nat.leb n 57.

Fixpoint all_chars (p : ascii -> bool) (s : string) : bool :=
  match s with
  | EmptyString => true
  | String c s' => p c && all_chars p s'
  end.

(** The part of [s] before its first colon, if it has one. *)
Fixpoint before_colon (s : string) : option string :=
  match s with
  | EmptyString => None
  | String c s' =>
      if Ascii.eqb c ":"%char then Some EmptyString
      else option_map (String c) (before_colon s')
  end.

(** A token test to evaluate [main] with, after the basic validation of
    python-telegram-bot 13: no white space, and at least three digits and
    nothing else before a colon. *)
Definition sample_bot_accepts (token : string) : bool :=
  all_chars (fun c => negb (is_space c)) token
  && match before_colon token with
     | Some digits =>
         all_chars is_digit digits && Nat.leb 3 (String.length digits)
     | None => false
     end.

Definition sample_cfg : config :=
  {| PRACTICUM_TOKEN := Some "practicum-token";
     TELEGRAM_TOKEN := Some "123456:ABCDEF";
     TELEGRAM_CHAT_ID := Some "42" |}.

(** A configuration whose [TELEGRAM_TOKEN] is set and malformed. *)
Definition refused_cfg : config :=
  {| PRACTICUM_TOKEN := Some "practicum-token";
     TELEGRAM_TOKEN := Some "telegram-token";
     TELEGRAM_CHAT_ID := Some "42" |}.

(** [{'homework_name': 'hw1', 'status': []}]. *)
Definition hw1_list_status : pyval :=
  PyDict [("homework_name", PyStr "hw1"); ("status", PyList [])].

(** A configuration without [TELEGRAM_TOKEN]. *)
Definition broken_cfg : config :=
  {| PRACTICUM_TOKEN := Some "practicum-token";
     TELEGRAM_TOKEN := None;
     TELEGRAM_CHAT_ID := Some "42" |}.

(** [{'homework_name': 'hw1', 'status': status}]. *)
Definition hw1 (status : string) : pyval :=
  PyDict [("homework_name", PyStr "hw1"); ("status", PyStr status)].

(** A 200 response [{'homeworks': homeworks, 'current_date': date}]. *)
Definition answer (homeworks : list pyval) (date : Z) : http_outcome :=
  Response 200
    (inr (PyDict [("homeworks", PyList homeworks); ("current_date", PyInt date)])).

Definition hw1_message (verdict : string) : string :=
  "Изменился статус проверки работы " +++ dq +++ "hw1" +++ dq +++ ". "
  +++ verdict.

Definition reviewing_message : string :=
  hw1_message "Работа взята на проверку ревьюером.".

Definition approved_message : string :=
  hw1_message "Работа проверена: ревьюеру всё понравилось. Ура!".

(** A poll that finds [hw1] with the given status; the server's date is
    [date] and the bot does [bot]. *)
Definition finds (status : string) (clock date : Z) (bot : tg_outcome) : env :=
  {| now := clock; http := answer [hw1 status] date; tg := bot |}.

(** A poll that meets HTTP 500; the bot does [bot]. *)
Definition outage (clock : Z) (bot : tg_outcome) : env :=
  {| now := clock; http := Response 500 (inl "not JSON"); tg := bot |}.

(** A poll that finds no homework; the server's date is [date]. *)
Definition nothing_new (clock date : Z) : env :=
  {| now := clock; http := answer [] date; tg := Delivered |}.

(** The state after a first iteration, started at time 1000, in which
    [hw1] was found in review with the server's date 1001 and the send
    failed (see [after_failed_send_reached]). *)
Definition after_failed_send : loop_state :=
  {| current_timestamp := PyInt 1001; prev_message := reviewing_message |}.

(** A poll whose 200 response is not JSON. *)
Definition garbled (clock : Z) : env :=
  {| now := clock; http := Response 200 (inl "Expecting value"); tg := Delivered |}.

(** A poll that finds [hw1] approved, followed by a record that is not a
    mapping. *)
Definition finds_two (clock date : Z) : env :=
  {| now := clock; http := answer [hw1 "approved"; PyNone] date;
     tg := Delivered |}.

(** ** Properties of [parse_status] *)

Lemma lookup_verdict_codes (status : string) :
  In status verdict_codes <-> lookup status HOMEWORK_VERDICTS <> None.
Proof.
  unfold verdict_codes, HOMEWORK_VERDICTS; cbn [lookup In].
  destruct (status =? "approved") eqn:Ha;
    [ apply String.eqb_eq in Ha; split; [ discriminate | auto ] | ].
  destruct (status =? "reviewing") eqn:Hr;
    [ apply String.eqb_eq in Hr; split; [ discriminate | auto ] | ].
  destruct (status =? "rejected") eqn:Hj;
    [ apply String.eqb_eq in Hj; split; [ discriminate | auto ] | ].
  apply String.eqb_neq in Ha, Hr, Hj.
  split; [ | congruence ].
  intros [H | [H | [H | []]]]; congruence.
Qed.

Lemma keys_guard_dict (d : list (string * pyval)) :
  keys_guard (PyDict d) =
  match lookup "homework_name" d with
  | Some _ => ([], Ok tt)
  | None =>
      ([EvLog ERROR missing_keys], Raise (KeyError (PyStr missing_keys)))
  end.
Proof.
  unfold keys_guard, str_or, contains, interp.
  change ("homework_name" =? "") with false; cbv iota.
  destruct (lookup "homework_name" d); reflexivity.
Qed.

Lemma status_guard_str (status : string) :
  status_guard (PyStr status) =
  match lookup status HOMEWORK_VERDICTS with
  | Some _ => ([], Ok tt)
  | None =>
      ([EvLog ERROR unknown_status], Raise (KeyError (PyStr unknown_status)))
  end.
Proof.
  unfold status_guard, in_verdicts, interp; cbn [hashable].
  destruct (lookup status HOMEWORK_VERDICTS); reflexivity.
Qed.

(** A status that can be hashed and is not a [str] is in no case a key of
    the table. *)
Lemma status_guard_other (v : pyval) :
  hashable v = true -> (forall s, v <> PyStr s) ->
  status_guard v =
  ([EvLog ERROR unknown_status], Raise (KeyError (PyStr unknown_status))).
Proof.
  intros Hh Hs; unfold status_guard, in_verdicts, interp; rewrite Hh.
  destruct v; try reflexivity.
  exfalso; exact (Hs s eq_refl).
Qed.

(** A [list] or [dict] status cannot be looked up in the table: the
    membership test itself raises a [TypeError]. *)
Lemma status_guard_unhashable (v : pyval) :
  hashable v = false ->
  status_guard v = ([], Raise (TypeError (fault_text (Unhashable v)))).
Proof.
  intros Hh; unfold status_guard, in_verdicts, interp; rewrite Hh.
  reflexivity.
Qed.

(** [parse_status] on a [dict], by what its two keys hold. *)
Lemma parse_status_dict (d : list (string * pyval)) :
  parse_status (PyDict d) =
  match lookup "homework_name" d with
  | None =>
      ([EvLog ERROR missing_keys], Raise (KeyError (PyStr missing_keys)))
  | Some homework_name =>
      match lookup "status" d with
      | None => ([], Raise (KeyError (PyStr "status")))
      | Some homework_status =>
          status_guard homework_status ;;
          verdict <- verdict_of homework_status ;;
          ret ("Изменился статус проверки работы " +++ dq
               +++ py_str homework_name +++ dq +++ ". " +++ verdict)
      end
  end.
Proof.
  unfold parse_status; rewrite keys_guard_dict.
  unfold subscript.
  destruct (lookup "homework_name" d) as [name |]; [ | reflexivity ].
  destruct (lookup "status" d) as [status |]; [ | reflexivity ].
  unfold bind at 1 2 3, ret at 1 2; cbn [app].
  destruct (status_guard status ;; _) as [tr r]; reflexivity.
Qed.

Lemma unknown_status_not_missing_keys : unknown_status <> missing_keys.
Proof.
  apply String.eqb_neq; vm_compute; reflexivity.
Qed.

(** The three ways [status_guard] can end. *)
Lemma status_guard_cases (v : pyval) :
  (exists s verdict,
      v = PyStr s /\ lookup s HOMEWORK_VERDICTS = Some verdict
      /\ status_guard v = ([], Ok tt))
  \/ status_guard v =
     ([EvLog ERROR unknown_status], Raise (KeyError (PyStr unknown_status)))
  \/ status_guard v = ([], Raise (TypeError (fault_text (Unhashable v)))).
Proof.
  destruct (hashable v) eqn:Hh;
    [ | right; right; apply status_guard_unhashable; exact Hh ].
  destruct v; try (right; left; apply status_guard_other;
                   [ exact Hh | intros ? ?; discriminate ]).
  rewrite status_guard_str.
  destruct (lookup s HOMEWORK_VERDICTS) as [verdict |] eqn:Hl.
  - left; exists s, verdict; auto.
  - right; left; reflexivity.
Qed.

(** C3 as the code has it. For a homework record with both keys whose
    status is one of the three codes of the verdict table, [parse_status]
    returns exactly [Изменился статус проверки работы "name". verdict] with
    the verdict of that code, and writes no log entry; the record of the
    spec's example gives the spec's text. For a record whose status is a
    value that can be hashed (a string, a number, a boolean, null) and is
    not a key of the table, and for a record without status,
    [parse_status] raises a [KeyError]. For a record with a name whose
    status is a list or a mapping, the membership test cannot hash it and
    [parse_status] raises a [TypeError], with no log entry. *)
Theorem parse_status_verdict_or_KeyError :
  (forall d name status,
      lookup "homework_name" d = Some name ->
      lookup "status" d = Some (PyStr status) ->
      In status verdict_codes ->
      exists verdict,
        lookup status HOMEWORK_VERDICTS = Some verdict
        /\ parse_status (PyDict d) =
           ([], Ok ("Изменился статус проверки работы " +++ dq
                    +++ py_str name +++ dq +++ ". " +++ verdict)))
  /\ parse_status
       (PyDict [("homework_name", PyStr "hw1"); ("status", PyStr "approved")])
     = ([], Ok ("Изменился статус проверки работы " +++ dq +++ "hw1" +++ dq
                +++ ". Работа проверена: ревьюеру всё понравилось. Ура!"))
  /\ (forall d v,
        lookup "status" d = Some v ->
        hashable v = true ->
        (forall status, v = PyStr status -> ~ In status verdict_codes) ->
        exists e,
          snd (parse_status (PyDict d)) = Raise e /\ is_KeyError e = true)
  /\ (forall d,
        lookup "status" d = None ->
        exists e,
          snd (parse_status (PyDict d)) = Raise e /\ is_KeyError e = true)
  /\ (forall d name v,
        lookup "homework_name" d = Some name ->
        lookup "status" d = Some v ->
        hashable v = false ->
        parse_status (PyDict d) =
        ([], Raise (TypeError (fault_text (Unhashable v))))).
Proof.
  split; [ | split; [ | split; [ | split ] ] ].
  - intros d name status Hn Hs Hin.
    apply lookup_verdict_codes in Hin.
    destruct (lookup status HOMEWORK_VERDICTS) as [verdict |] eqn:Hl;
      [ | congruence ].
    exists verdict; split; [ reflexivity | ].
    rewrite parse_status_dict, Hn, Hs, status_guard_str, Hl.
    unfold verdict_of; cbn [hashable]; rewrite Hl.
    reflexivity.
  - reflexivity.
  - intros d v Hs Hh Hout.
    rewrite parse_status_dict, Hs.
    destruct (lookup "homework_name" d) as [name |];
      [ | eexists; split; reflexivity ].
    assert (Hguard :
              status_guard v =
              ([EvLog ERROR unknown_status],
               Raise (KeyError (PyStr unknown_status)))).
    { destruct v;
        try (apply status_guard_other;
             [ exact Hh | intros ? ?; discriminate ]);
        try discriminate Hh.
      rewrite status_guard_str.
      destruct (lookup s HOMEWORK_VERDICTS) eqn:Hl; [ | reflexivity ].
      exfalso; apply (Hout s eq_refl), lookup_verdict_codes; congruence. }
    rewrite Hguard; eexists; split; reflexivity.
  - intros d Hs.
    rewrite parse_status_dict, Hs.
    destruct (lookup "homework_name" d) as [name |];
      eexists; split; reflexivity.
  - intros d name v Hn Hs Hh.
    rewrite parse_status_dict, Hn, Hs, (status_guard_unhashable v Hh).
    reflexivity.
Qed.

(** C6. The key check of [parse_status] evaluates
    [('homework_name' or 'status')] to ['homework_name'], so on a mapping it
    only tests that key: it raises its logged [KeyError] exactly when
    ['homework_name'] is absent, and passes whenever ['homework_name'] is
    present, whatever ['status'] is, even absent; the logged [KeyError] of
    the check is the result of [parse_status] exactly in that case. *)
Theorem keys_guard_tests_homework_name_only :
  str_or "homework_name" "status" = "homework_name"
  /\ (forall d,
        keys_guard (PyDict d) =
        ([EvLog ERROR missing_keys], Raise (KeyError (PyStr missing_keys)))
        <-> lookup "homework_name" d = None)
  /\ (forall d,
        lookup "homework_name" d <> None -> keys_guard (PyDict d) = ([], Ok tt))
  /\ (forall d,
        parse_status (PyDict d) =
        ([EvLog ERROR missing_keys], Raise (KeyError (PyStr missing_keys)))
        <-> lookup "homework_name" d = None).
Proof.
  split; [ reflexivity | split; [ | split ] ].
  - intros d; rewrite keys_guard_dict.
    destruct (lookup "homework_name" d); split; congruence.
  - intros d Hn; rewrite keys_guard_dict.
    destruct (lookup "homework_name" d); congruence.
  - intros d; rewrite parse_status_dict.
    destruct (lookup "homework_name" d) as [name |];
      [ | split; reflexivity ].
    split; [ | discriminate ].
    destruct (lookup "status" d) as [status |]; [ | discriminate ].
    destruct (status_guard_cases status)
      as [(s & verdict & -> & Hl & Hg) | [Hg | Hg]]; rewrite Hg.
    + unfold verdict_of; cbn [hashable]; rewrite Hl; discriminate.
    + intros H; exfalso; apply unknown_status_not_missing_keys.
      unfold bind in H; congruence.
    + discriminate.
Qed.

(** C10. A mapping that has ['homework_name'] and lacks ['status'] passes
    the key check and then fails at [homework['status']] with
    [KeyError('status')], with no log entry written; so every mapping that
    lacks one of the two keys makes [parse_status] raise a [KeyError]. *)
Theorem parse_status_missing_key_KeyError :
  (forall d name,
      lookup "homework_name" d = Some name ->
      lookup "status" d = None ->
      parse_status (PyDict d) = ([], Raise (KeyError (PyStr "status"))))
  /\ (forall d,
        lookup "homework_name" d = None \/ lookup "status" d = None ->
        exists e,
          snd (parse_status (PyDict d)) = Raise e /\ is_KeyError e = true).
Proof.
  split.
  - intros d name Hn Hs; rewrite parse_status_dict, Hn, Hs; reflexivity.
  - intros d H; rewrite parse_status_dict.
    destruct (lookup "homework_name" d) as [name |];
      [ | eexists; split; reflexivity ].
    destruct H as [H | H]; [ discriminate | ].
    rewrite H; eexists; split; reflexivity.
Qed.

(** ** Properties of [check_response] and [get_api_answer] *)

(** C4. [check_response] raises a [TypeError] on anything that is not a
    mapping, a [KeyError] on a mapping without ['homeworks'], a [TypeError]
    when ['homeworks'] is not a list, each after logging the error; it
    returns the empty list on [{'homeworks': []}] (after a debug entry); and
    on every mapping that passes the three checks it returns the value of
    ['homeworks'] itself. *)
Theorem check_response_shape :
  (forall response,
      (forall d, response <> PyDict d) ->
      let message_error := "Тип ответа API - не словарь: " +++ py_str response in
      check_response response =
      ([EvLog ERROR message_error], Raise (TypeError message_error)))
  /\ (forall d,
        lookup "homeworks" d = None ->
        let message_error :=
          "Отсутствует ключ homeworks в ответе API: " +++ py_str (PyDict d) in
        check_response (PyDict d) =
        ([EvLog ERROR message_error], Raise (KeyError (PyStr message_error))))
  /\ (forall d v,
        lookup "homeworks" d = Some v ->
        (forall l, v <> PyList l) ->
        let message_error :=
          "Тип ответа API - не список: " +++ py_str (PyDict d) in
        check_response (PyDict d) =
        ([EvLog ERROR message_error], Raise (TypeError message_error)))
  /\ check_response (PyDict [("homeworks", PyList [])]) =
     ([EvLog DEBUG "Нет новых статусов домашек"], Ok [])
  /\ (forall d l,
        lookup "homeworks" d = Some (PyList l) ->
        snd (check_response (PyDict d)) = Ok l).
Proof.
  repeat split.
  - intros response Hnd.
    destruct response; try reflexivity.
    exfalso; exact (Hnd d eq_refl).
  - intros d Hl; unfold check_response; rewrite Hl; reflexivity.
  - intros d v Hl Hnl; unfold check_response; rewrite Hl.
    destruct v; try reflexivity.
    exfalso; exact (Hnl l eq_refl).
  - intros d l Hl; unfold check_response; rewrite Hl.
    destruct l; reflexivity.
Qed.

(** The request [get_api_answer] issues and what follows it. *)
Lemma get_api_answer_eq (e : env) (ts : pyval) :
  exists tr r,
    get_api_answer e ts =
    (EvGet ENDPOINT HEADERS [("from_date", py_or ts (PyInt (now e)))] :: tr, r)
    /\ match http e with
       | RequestException =>
           exists msg, tr = [EvLog ERROR msg] /\ r = Raise (APIAnswerError msg)
       | Response code json =>
           if (code =? 200)%Z then
             tr = [] /\ r = match json with
                            | inl text => Raise (JSONDecodeError text)
                            | inr body => Ok body
                            end
           else
             exists msg, tr = [EvLog ERROR msg] /\ r = Raise (APIAnswerError msg)
       end.
Proof.
  unfold get_api_answer.
  destruct (http e) as [| code json].
  - eexists; eexists; split; [ reflexivity | ].
    eexists; split; reflexivity.
  - destruct (code =? 200)%Z; cbn [negb].
    + destruct json; eexists; eexists; split; try reflexivity;
        split; reflexivity.
    + eexists; eexists; split; [ reflexivity | ].
      eexists; split; reflexivity.
Qed.

(** C5. [get_api_answer] raises [APIAnswerError] exactly when the transport
    raises or the status code is not 200; whenever it raises it, the error
    entry with the same text is the last thing it did before; and on a 200
    response whose body parses it returns the parsed body. *)
Theorem get_api_answer_APIAnswerError (e : env) (ts : pyval) :
  ((exists msg, snd (get_api_answer e ts) = Raise (APIAnswerError msg))
   <-> (http e = RequestException
        \/ exists code json, http e = Response code json /\ code <> 200%Z))
  /\ (forall tr msg,
        get_api_answer e ts = (tr, Raise (APIAnswerError msg)) ->
        exists tr', tr = tr' ++ [EvLog ERROR msg])
  /\ (forall body,
        http e = Response 200 (inr body) ->
        snd (get_api_answer e ts) = Ok body).
Proof.
  destruct (get_api_answer_eq e ts) as (tr0 & r0 & Heq & Hcase).
  rewrite Heq; cbn [snd].
  destruct (http e) as [| code json].
  - destruct Hcase as (msg0 & -> & ->).
    split; [ | split ].
    + split; [ intros _; left; reflexivity | intros _; exists msg0; reflexivity ].
    + intros tr msg H; injection H as <- <-.
      eexists [_]; reflexivity.
    + discriminate.
  - destruct (code =? 200)%Z eqn:Hc.
    + apply Z.eqb_eq in Hc; subst code.
      destruct Hcase as [-> ->].
      split; [ | split ].
      * split.
        -- intros [msg H]; destruct json; discriminate.
        -- intros [H | (c & j & H & Hne)]; [ discriminate | ].
           injection H as <- <-; congruence.
      * intros tr msg H; destruct json; discriminate.
      * intros body H; injection H as ->; reflexivity.
    + apply Z.eqb_neq in Hc.
      destruct Hcase as (msg0 & -> & ->).
      split; [ | split ].
      * split; [ intros _; right; eauto | intros _; exists msg0; reflexivity ].
      * intros tr msg H; injection H as <- <-.
        eexists [_]; reflexivity.
      * intros body H; injection H as ? ?; congruence.
Qed.

(** ** Properties of [check_tokens] and the start of [main] *)

Lemma check_tokens_cases :
  (some_absent /\ exists msg, check_tokens = ([EvLog CRITICAL msg], Ok false))
  \/ (~ some_absent /\ check_tokens = ([], Ok true)).
Proof.
  unfold some_absent, check_tokens.
  destruct (PRACTICUM_TOKEN cfg), (TELEGRAM_TOKEN cfg), (TELEGRAM_CHAT_ID cfg);
    cbn [filter map fst snd is_None];
    try (left; split; [ propositional | eexists; reflexivity ]).
  right; split; [ | reflexivity ].
  intros [H | [H | H]]; discriminate.
Qed.

(** The three ways [main] can go at startup. *)
Lemma main_cases (startup_time : Z) (envs : list env) :
  (some_absent
   /\ main startup_time envs =
      (fst check_tokens, Exited "Проверьте, заданы ли все токены"))
  \/ (~ some_absent /\ ~ bot_built
      /\ main startup_time envs = ([], InvalidToken))
  \/ (~ some_absent /\ bot_built
      /\ main startup_time envs =
         let '(tr, st, r) := loop envs (initial_state startup_time) in
         (tr, match r with
              | None => Running st
              | Some err => Crashed err st
              end)).
Proof.
  unfold main, bot_built.
  destruct check_tokens_cases as [(Habs & msg & Heq) | (Hpres & Heq)];
    rewrite Heq; [ left; split; [ exact Habs | reflexivity ] | right ].
  destruct (TELEGRAM_TOKEN cfg) as [token |] eqn:Htoken.
  - destruct (bot_accepts token) eqn:Hacc.
    + right; split; [ exact Hpres | split; [ eauto | ] ].
      destruct (loop envs (initial_state startup_time)) as [[tr st] r];
        reflexivity.
    + left; split; [ exact Hpres | split; [ | reflexivity ] ].
      intros (token' & [= <-] & Hacc'); congruence.
  - exfalso; apply Hpres; unfold some_absent; auto.
Qed.

(** C8. [check_tokens] returns [False] exactly when one of the three
    variables is unset, after one critical log entry, and [True] otherwise;
    [main] exits with its message exactly in that case, before any request
    is made; so [main] makes a request only when the three are set. When
    they are set [main] builds the bot: if the library refuses the token,
    [main] ends with its [InvalidToken] and without any event; otherwise
    [main] is the loop started with the startup time as cursor and the
    empty previous message. *)
Theorem check_tokens_gates_main :
  (snd check_tokens = Ok false <-> some_absent)
  /\ (snd check_tokens = Ok true <-> ~ some_absent)
  /\ (some_absent -> exists msg, fst check_tokens = [EvLog CRITICAL msg])
  /\ (forall startup_time envs,
        (exists tr msg, main startup_time envs = (tr, Exited msg))
        <-> some_absent)
  /\ (forall startup_time envs,
        some_absent ->
        main startup_time envs =
        (fst check_tokens, Exited "Проверьте, заданы ли все токены")
        /\ requested (fst (main startup_time envs)) = []
        /\ notified (fst (main startup_time envs)) = [])
  /\ (forall startup_time envs,
        requested (fst (main startup_time envs)) <> [] -> ~ some_absent)
  /\ (forall startup_time envs,
        ~ some_absent -> bot_built ->
        main startup_time envs =
        let '(tr, st, r) := loop envs (initial_state startup_time) in
        (tr, match r with
             | None => Running st
             | Some err => Crashed err st
             end))
  /\ (forall startup_time envs,
        ~ some_absent -> ~ bot_built ->
        main startup_time envs = ([], InvalidToken)).
Proof.
  assert (Htok : (snd check_tokens = Ok false <-> some_absent)
                 /\ (snd check_tokens = Ok true <-> ~ some_absent)
                 /\ (some_absent ->
                     exists msg, fst check_tokens = [EvLog CRITICAL msg])).
  { destruct check_tokens_cases as [(Habs & msg & Heq) | (Hpres & Heq)];
      rewrite Heq; cbn [fst snd].
    - split; [ | split ].
      + split; [ intros _; exact Habs | reflexivity ].
      + split; [ discriminate | propositional ].
      + intros _; eexists; reflexivity.
    - split; [ | split ].
      + split; [ discriminate | propositional ].
      + split; [ intros _; exact Hpres | reflexivity ].
      + propositional. }
  destruct Htok as (H1 & H2 & H3).
  assert (Hexit : forall startup_time envs,
             some_absent ->
             main startup_time envs =
             (fst check_tokens, Exited "Проверьте, заданы ли все токены")
             /\ requested (fst (main startup_time envs)) = []
             /\ notified (fst (main startup_time envs)) = []).
  { intros startup_time envs Habs.
    destruct (main_cases startup_time envs)
      as [(_ & Hm) | [(Hp & _) | (Hp & _)]]; try contradiction.
    rewrite Hm; cbn [fst].
    destruct (H3 Habs) as (msg & ->); repeat split. }
  split; [ exact H1 | split; [ exact H2 | split; [ exact H3 | ] ] ].
  split; [ | split; [ exact Hexit | split; [ | split ] ] ].
  - intros startup_time envs; split.
    + intros (tr & msg & Hm).
      destruct (main_cases startup_time envs)
        as [(Habs & _) | [(_ & _ & Hm') | (_ & _ & Hm')]];
        [ exact Habs | congruence | ].
      rewrite Hm' in Hm.
      destruct (loop envs (initial_state startup_time)) as [[tr' st] [err |]];
        discriminate.
    + intros Habs; destruct (Hexit startup_time envs Habs) as (-> & _); eauto.
  - intros startup_time envs Hreq Habs.
    destruct (Hexit startup_time envs Habs) as (_ & Hr & _); contradiction.
  - intros startup_time envs Hp Hb.
    destruct (main_cases startup_time envs)
      as [(Habs & _) | [(_ & Hnb & _) | (_ & _ & Hm)]];
      [ contradiction | contradiction | exact Hm ].
  - intros startup_time envs Hp Hnb.
    destruct (main_cases startup_time envs)
      as [(Habs & _) | [(_ & _ & Hm) | (_ & Hb & _)]];
      [ contradiction | exact Hm | contradiction ].
Qed.

(** ** The loop: what an iteration forms, sends and keeps *)

Lemma notified_app (tr tr' : list event) :
  notified (tr ++ tr') = notified tr ++ notified tr'.
Proof.
  induction tr as [| ev tr IH]; [ reflexivity | ].
  destruct ev; cbn [app notified]; rewrite IH; reflexivity.
Qed.

Lemma requested_app (tr tr' : list event) :
  requested (tr ++ tr') = requested tr ++ requested tr'.
Proof.
  induction tr as [| ev tr IH]; [ reflexivity | ].
  destruct ev; cbn [app requested]; rewrite IH; reflexivity.
Qed.

Lemma silent_ret {A} (a : A) : silent (ret a).
Proof. split; [ reflexivity | split; [ reflexivity | discriminate ] ]. Qed.

Lemma silent_raise {A} (err : exn) :
  is_SendMessageError err = false -> silent (@raise A err).
Proof.
  intros H; split; [ reflexivity | split; [ reflexivity | ] ].
  cbn; intros err' [= <-]; exact H.
Qed.

Lemma silent_log (lvl : level) (msg : string) : silent (emit (EvLog lvl msg)).
Proof. split; [ reflexivity | split; [ reflexivity | discriminate ] ]. Qed.

Lemma silent_bind {A B} (c : Eff A) (k : A -> Eff B) :
  silent c -> (forall a, silent (k a)) -> silent (bind c k).
Proof.
  unfold silent.
  destruct c as [tr [a | err]]; cbn [fst snd bind]; intros (Hn & Hr & He) Hk.
  - specialize (Hk a); destruct (k a) as [tr' r]; cbn [fst snd] in *.
    destruct Hk as (Hn' & Hr' & He').
    rewrite notified_app, requested_app, Hn, Hr, Hn', Hr'.
    split; [ reflexivity | split; [ reflexivity | exact He' ] ].
  - split; [ exact Hn | split; [ exact Hr | ] ].
    intros err' [= <-]; apply He; reflexivity.
Qed.

Lemma silent_interp {A} (r : fault + A) : silent (interp r).
Proof.
  destruct r as [f | a]; [ | apply silent_ret ].
  apply silent_raise; destruct f; reflexivity.
Qed.

Lemma silent_subscript (c : pyval) (k : string) : silent (subscript c k).
Proof.
  destruct c; cbn [subscript];
    try (apply silent_raise; reflexivity).
  destruct (lookup k d); [ apply silent_ret | apply silent_raise; reflexivity ].
Qed.

Lemma silent_verdict_of (v : pyval) : silent (verdict_of v).
Proof.
  unfold verdict_of.
  destruct (hashable v); [ | apply silent_raise; reflexivity ].
  destruct v; try (apply silent_raise; reflexivity).
  destruct (lookup s HOMEWORK_VERDICTS);
    [ apply silent_ret | apply silent_raise; reflexivity ].
Qed.

Lemma silent_get (response : pyval) (k : string) (default : pyval) :
  silent (get response k default).
Proof.
  destruct response; cbn [get];
    try (apply silent_raise; reflexivity).
  apply silent_ret.
Qed.

Create HintDb silent.
#[local] Hint Resolve silent_ret silent_log silent_interp silent_subscript
  silent_verdict_of silent_get : silent.
#[local] Hint Extern 1 (silent (raise _)) =>
  (apply silent_raise; reflexivity) : silent.
#[local] Hint Extern 2 (silent (bind _ _)) =>
  (apply silent_bind; [ | intros ? ]) : silent.
#[local] Hint Extern 3 (silent (if ?b then _ else _)) => destruct b : silent.
#[local] Hint Unfold logging.error logging.debug logging.critical : silent.

Lemma silent_parse_status (homework : pyval) : silent (parse_status homework).
Proof.
  unfold parse_status, keys_guard, status_guard.
  autounfold with silent.
  auto 20 with silent.
Qed.

Lemma silent_check_response (response : pyval) :
  silent (check_response response).
Proof.
  unfold check_response; autounfold with silent.
  destruct response; auto 10 with silent.
  destruct (lookup "homeworks" d) as [[] |]; auto 10 with silent.
Qed.

(** [check_response] returns exactly on a mapping whose ['homeworks'] is a
    list, and raises on everything else. *)
Lemma check_response_cases (response : pyval) :
  (exists d l,
      response = PyDict d /\ lookup "homeworks" d = Some (PyList l)
      /\ snd (check_response response) = Ok l)
  \/ ((forall d l, response = PyDict d ->
                  lookup "homeworks" d <> Some (PyList l))
      /\ exists err, snd (check_response response) = Raise err).
Proof.
  destruct response;
    try (right; split; [ intros ? ? ?; discriminate | eexists; reflexivity ]).
  destruct (lookup "homeworks" d) as [v |] eqn:Hl.
  - destruct v;
      try (right; split;
           [ intros d' l' [= <-]; rewrite Hl; discriminate
           | unfold check_response; rewrite Hl; eexists; reflexivity ]).
    left; exists d, l; repeat split; try assumption.
    unfold check_response; rewrite Hl; destruct l; reflexivity.
  - right; split; [ intros d' l' [= <-]; rewrite Hl; discriminate | ].
    unfold check_response; rewrite Hl; eexists; reflexivity.
Qed.

(** What the part of an iteration before the comparison does: one request,
    with the cursor (or the clock, when the cursor is falsy) as [from_date];
    no bot call; the cursor set to the date of a validated response and
    otherwise kept; [prev_message] kept; no [SendMessageError]. *)
Lemma poll_spec (e : env) (st : loop_state) :
  exists tr r,
    poll e st =
    (tr,
     {| current_timestamp :=
          match supplied_date e with
          | Some v => v
          | None => current_timestamp st
          end;
        prev_message := prev_message st |},
     r)
    /\ notified tr = []
    /\ requested tr = [Some (py_or (current_timestamp st) (PyInt (now e)))]
    /\ (forall err, r = Raise err -> is_SendMessageError err = false).
Proof.
  destruct st as [c p].
  unfold poll, supplied_date, bindL, read_state, lift, set_current_timestamp,
    retL; cbn [current_timestamp prev_message].
  destruct (get_api_answer_eq e c) as (trA & rA & Heq & Hcase).
  rewrite Heq; clear Heq.
  destruct (http e) as [| code json].
  { destruct Hcase as (msg & -> & ->).
    eexists; eexists; split; [ reflexivity | ].
    split; [ reflexivity | split; [ reflexivity | ] ].
    intros err [= <-]; reflexivity. }
  destruct (code =? 200)%Z.
  2:{ destruct Hcase as (msg & -> & ->).
      destruct json as [text | []];
        (eexists; eexists; split; [ reflexivity | ];
         split; [ reflexivity | split; [ reflexivity | ] ];
         intros err [= <-]; reflexivity). }
  destruct Hcase as [-> ->].
  destruct json as [text | body].
  { eexists; eexists; split; [ reflexivity | ].
    split; [ reflexivity | split; [ reflexivity | ] ].
    intros err [= <-]; reflexivity. }
  destruct (silent_check_response body) as (HnB & HrB & HeB).
  destruct (check_response_cases body)
    as [(d & l & -> & Hl & Hok) | (Hno & err & Hraise)].
  - destruct (check_response (PyDict d)) as [trB rB].
    cbn [fst snd] in *; subst rB; rewrite Hl.
    cbn [get ret].
    destruct l as [| first rest].
    + eexists; eexists; split; [ reflexivity | ].
      cbn [app]; rewrite app_nil_r.
      cbn [notified requested].
      rewrite HnB, HrB.
      split; [ reflexivity | split; [ reflexivity | discriminate ] ].
    + destruct (silent_parse_status first) as (HnC & HrC & HeC).
      destruct (parse_status first) as [trC [message | err]];
        cbn [fst snd] in *.
      * eexists; eexists; split; [ reflexivity | ].
        cbn [app]; rewrite !app_nil_r.
        cbn [notified requested].
        rewrite notified_app, requested_app, HnB, HrB, HnC, HrC.
        split; [ reflexivity | split; [ reflexivity | discriminate ] ].
      * eexists; eexists; split; [ reflexivity | ].
        cbn [app].
        cbn [notified requested].
        rewrite notified_app, requested_app, HnB, HrB, HnC, HrC.
        split; [ reflexivity | split; [ reflexivity | ] ].
        intros err' [= <-]; apply HeC; reflexivity.
  - destruct (check_response body) as [trB rB].
    cbn [fst snd] in *; subst rB.
    assert (Hnone :
              match body with
              | PyDict d =>
                  match lookup "homeworks" d with
                  | Some (PyList _) => lookup "current_date" d
                  | _ => None
                  end
              | _ => None
              end = None).
    { destruct body; try reflexivity.
      destruct (lookup "homeworks" d) as [[] |] eqn:Hl; try reflexivity.
      exfalso; exact (Hno d l eq_refl Hl). }
    rewrite Hnone.
    eexists; eexists; split; [ reflexivity | ].
    cbn [app notified requested].
    rewrite HnB, HrB.
    split; [ reflexivity | split; [ reflexivity | ] ].
    intros err' [= <-]; apply HeB; reflexivity.
Qed.

Lemma send_message_eq (e : env) (message : string) :
  send_message e message =
  match tg e with
  | Delivered =>
      ([EvLog DEBUG ("Попытка отправть сообщение - " +++ message);
        EvSend (TELEGRAM_CHAT_ID cfg) message;
        EvLog DEBUG "Сообщение отправлено"], Ok tt)
  | TelegramError =>
      ([EvLog DEBUG ("Попытка отправть сообщение - " +++ message);
        EvSend (TELEGRAM_CHAT_ID cfg) message;
        EvLog ERROR send_failed], Raise (SendMessageError send_failed))
  end.
Proof.
  unfold send_message; destruct (tg e); reflexivity.
Qed.

(** The [try] body is [poll] followed by the comparison and the send. *)
Lemma try_block_poll (e : env) (st : loop_state) :
  try_block e st =
  match poll e st with
  | (tr, st1, Ok (Some message)) =>
      if negb (message =? prev_message st1) then
        let '(tr', r) := send_message e message in
        (tr ++ tr',
         {| current_timestamp := current_timestamp st1;
            prev_message := message |}, r)
      else (tr, st1, Ok tt)
  | (tr, st1, Ok None) => (tr, st1, Ok tt)
  | (tr, st1, Raise err) => (tr, st1, Raise err)
  end.
Proof.
  unfold try_block, poll, bindL, read_state, lift, set_current_timestamp,
    set_prev_message, retL.
  destruct (get_api_answer e (current_timestamp st)) as [trA [response | err]];
    [ | reflexivity ].
  destruct (check_response response) as [trB [homeworks | err]];
    [ | reflexivity ].
  destruct (get response "current_date" (current_timestamp st))
    as [trG [new_timestamp | err]]; [ | reflexivity ].
  cbn [current_timestamp prev_message].
  destruct homeworks as [| first rest].
  - cbn [app]; rewrite !app_nil_r; reflexivity.
  - destruct (parse_status first) as [trC [message | err]]; [ | reflexivity ].
    destruct (send_message e message) as [trS r].
    cbn [current_timestamp prev_message app].
    destruct (negb (message =? prev_message st));
      cbn [app]; rewrite ?app_nil_r, <- ?app_assoc; reflexivity.
Qed.

(** What one iteration does, in terms of the message it forms. *)
Lemma iteration_summary (e : env) (st : loop_state) :
  exists tr st' r,
    iteration e st = (tr, st', r)
    /\ current_timestamp st' =
       match supplied_date e with
       | Some v => v
       | None => current_timestamp st
       end
    /\ requested tr = [Some (py_or (current_timestamp st) (PyInt (now e)))]
    /\ (forall err, r = Raise err ->
                   err = SendMessageError send_failed /\ tg e = TelegramError)
    /\ match formed e st with
       | None =>
           notified tr = [] /\ prev_message st' = prev_message st /\ r = Ok tt
       | Some m =>
           prev_message st' = m
           /\ notified tr = (if m =? prev_message st then [] else [m])
       end.
Proof.
  unfold iteration, try_finally, try_except, formed.
  rewrite try_block_poll.
  destruct (poll_spec e st) as (tr & r & Hp & Hn & Hr & He).
  rewrite Hp; clear Hp.
  cbn [current_timestamp prev_message lift emit].
  destruct r as [[m |] | err].
  - destruct (m =? prev_message st) eqn:Hm; cbn [negb].
    + apply String.eqb_eq in Hm.
      eexists; eexists; eexists; split; [ reflexivity | ].
      cbn [current_timestamp prev_message].
      rewrite requested_app, notified_app, Hr, Hn.
      repeat split; try discriminate; auto.
    + rewrite send_message_eq.
      destruct (tg e); cbn [handler is_SendMessageError lift logging.error emit];
        (eexists; eexists; eexists; split; [ reflexivity | ]);
        cbn [current_timestamp prev_message];
        rewrite ?requested_app, ?notified_app, Hr, Hn;
        repeat split; try discriminate.
  - eexists; eexists; eexists; split; [ reflexivity | ].
    cbn [current_timestamp prev_message].
    rewrite requested_app, notified_app, Hr, Hn.
    repeat split; try discriminate.
  - unfold handler; rewrite (He err eq_refl).
    unfold bindL, read_state, set_prev_message, lift, retL, logging.error, emit.
    cbn [current_timestamp prev_message].
    destruct (("Сбой в работе программы: " +++ exn_str err) =? prev_message st)
      eqn:Hm; cbn [negb].
    + apply String.eqb_eq in Hm.
      eexists; eexists; eexists; split; [ reflexivity | ].
      cbn [current_timestamp prev_message].
      rewrite !requested_app, !notified_app, Hr, Hn.
      repeat split; try discriminate; auto.
    + rewrite send_message_eq.
      destruct (tg e);
        (eexists; eexists; eexists; split; [ reflexivity | ]);
        cbn [current_timestamp prev_message];
        rewrite ?requested_app, ?notified_app, Hr, Hn;
        repeat split; try discriminate; try congruence.
Qed.

Lemma stutter_free_tail (a : string) (l : list string) :
  stutter_free (a :: l) -> stutter_free l.
Proof.
  destruct l; cbn; propositional.
Qed.

(** Along the loop, started in any state, the texts handed to the bot never
    repeat the one before, and the first differs from [prev_message]. *)
Lemma loop_stutter_free (envs : list env) :
  forall st,
    stutter_free (prev_message st :: notified (trace_of (loop envs st))).
Proof.
  induction envs as [| e envs IH]; intros st; [ exact I | ].
  cbn [loop].
  destruct (iteration_summary e st) as (tr & st' & r & Heq & _ & _ & _ & Hf).
  rewrite Heq.
  assert (Hstep :
            (notified tr = [] /\ prev_message st' = prev_message st)
            \/ (notified tr = [prev_message st']
                /\ prev_message st' <> prev_message st)).
  { destruct (formed e st) as [m |].
    - destruct Hf as [-> Hn].
      destruct (m =? prev_message st) eqn:Hm.
      + apply String.eqb_eq in Hm; left; auto.
      + apply String.eqb_neq in Hm; right; auto.
    - left; propositional. }
  destruct r as [[] | err].
  - specialize (IH st').
    destruct (loop envs st') as [[tr' st''] r'].
    unfold trace_of in *; cbn [fst snd] in *.
    rewrite notified_app.
    destruct Hstep as [[-> <-] | [-> Hne]]; cbn [app].
    + exact IH.
    + split; [ congruence | exact IH ].
  - unfold trace_of; cbn [fst snd].
    destruct Hstep as [[-> _] | [-> Hne]]; cbn; auto.
Qed.

(** C1. The texts [main] hands to the Notifier, over any number of
    iterations and whatever the API and the bot do, never contain the same
    text twice in a row; and when two consecutive iterations form the same
    message (a status notification or an error notification), the second
    does not invoke the Notifier, so that it is invoked at most once over
    the two. *)
Theorem dedup_invariant :
  (forall startup_time envs,
      stutter_free (notified (fst (main startup_time envs))))
  /\ (forall e1 e2 st m,
        formed e1 st = Some m ->
        formed e2 (state_of (iteration e1 st)) = Some m ->
        notified (trace_of (iteration e2 (state_of (iteration e1 st)))) = []
        /\ (length
              (notified
                 (trace_of (iteration e1 st)
                  ++ trace_of (iteration e2 (state_of (iteration e1 st)))))
            <= 1)%nat).
Proof.
  split.
  - intros startup_time envs.
    pose proof (loop_stutter_free envs (initial_state startup_time)) as Hl.
    apply stutter_free_tail in Hl.
    destruct (main_cases startup_time envs)
      as [(_ & ->) | [(_ & _ & ->) | (_ & _ & ->)]].
    + destruct check_tokens_cases as [(_ & msg & ->) | (_ & ->)]; exact I.
    + exact I.
    + destruct (loop envs (initial_state startup_time)) as [[tr st] r].
      exact Hl.
  - intros e1 e2 st m Hf1 Hf2.
    destruct (iteration_summary e1 st)
      as (tr1 & st1 & r1 & Heq1 & _ & _ & _ & H1).
    rewrite Heq1 in *; unfold state_of, trace_of in *; cbn [fst snd] in *.
    destruct (iteration_summary e2 st1)
      as (tr2 & st2 & r2 & Heq2 & _ & _ & _ & H2).
    rewrite Heq2; cbn [fst snd].
    rewrite Hf1 in H1; rewrite Hf2 in H2.
    destruct H1 as [Hp1 Hn1], H2 as [_ Hn2].
    rewrite Hp1, String.eqb_refl in Hn2.
    rewrite notified_app, Hn1, Hn2.
    split; [ reflexivity | ].
    destruct (m =? prev_message st); cbn; lia.
Qed.

(** C7. When the [try] body raises [SendMessageError], the iteration only
    adds one error log entry (and the sleep): no message is built and the
    bot is not called again. When it raises anything else, the message
    [Сбой в работе программы: error] is built; if it equals [prev_message]
    nothing more happens; otherwise [prev_message] takes it, it is logged at
    error level and handed to [send_message], and the outcome of that send
    is the outcome of the iteration: its [SendMessageError] is not caught,
    and the loop ends with it. *)
Theorem loop_failure_handling (e : env) (st : loop_state) :
  (forall tr st1 msg,
      try_block e st = (tr, st1, Raise (SendMessageError msg)) ->
      iteration e st =
      (tr ++ [EvLog ERROR "Сбой при отправке сообщения в Telegram";
              EvSleep RETRY_PERIOD], st1, Ok tt))
  /\ (forall tr st1 err,
        try_block e st = (tr, st1, Raise err) ->
        is_SendMessageError err = false ->
        let message := "Сбой в работе программы: " +++ exn_str err in
        (message = prev_message st1 ->
         iteration e st = (tr ++ [EvSleep RETRY_PERIOD], st1, Ok tt))
        /\ (message <> prev_message st1 ->
            iteration e st =
            (tr ++ [EvLog ERROR message] ++ fst (send_message e message)
                ++ [EvSleep RETRY_PERIOD],
             {| current_timestamp := current_timestamp st1;
                prev_message := message |},
             snd (send_message e message))
            /\ notified (fst (send_message e message)) = [message]
            /\ (tg e = TelegramError ->
                snd (send_message e message) =
                Raise (SendMessageError send_failed))))
  /\ (forall tr st' err envs,
        iteration e st = (tr, st', Raise err) ->
        loop (e :: envs) st = (tr, st', Some err)).
Proof.
  split; [ | split ].
  - intros tr st1 msg Htry.
    unfold iteration, try_finally, try_except; rewrite Htry.
    unfold handler, lift, logging.error, emit; cbn [is_SendMessageError].
    rewrite <- app_assoc; reflexivity.
  - intros tr st1 err Htry Hkind message.
    unfold iteration, try_finally, try_except; rewrite Htry.
    unfold handler; rewrite Hkind.
    fold message.
    unfold bindL, read_state, set_prev_message, lift, retL, logging.error, emit.
    split.
    + intros Hsame; rewrite Hsame, String.eqb_refl; cbn [negb].
      cbn [app]; rewrite app_nil_r; reflexivity.
    + intros Hnew; apply String.eqb_neq in Hnew; rewrite Hnew; cbn [negb].
      rewrite send_message_eq.
      destruct (tg e); cbn [app fst snd]; rewrite <- ?app_assoc;
        (split; [ reflexivity | split; [ reflexivity | ] ]);
        [ discriminate | reflexivity ].
  - intros tr st' err envs Hit; cbn [loop]; rewrite Hit; reflexivity.
Qed.

(** C9 as the code has it. [prev_message] is assigned before the bot is
    called: when the send of the [try] body fails, the state the exception
    leaves behind already holds the failed text, and after any iteration
    that called the bot [prev_message] is the text it was called with. An
    iteration that forms the text [prev_message] holds does not call the bot
    and keeps it, and one that forms no message keeps it too: the failed
    text is not sent again for as long as no other message is formed. An
    iteration that forms any other text hands it to the bot and
    [prev_message] takes it, whether the bot delivers or fails; so once
    another message has been formed, forming the first text again sends it
    again. *)
Theorem prev_message_set_before_send :
  (forall e st tr st1 msg,
      try_block e st = (tr, st1, Raise (SendMessageError msg)) ->
      notified tr = [prev_message st1] /\ tg e = TelegramError)
  /\ (forall e st m,
        In m (notified (trace_of (iteration e st))) ->
        prev_message (state_of (iteration e st)) = m)
  /\ (forall e st,
        formed e st = Some (prev_message st) ->
        notified (trace_of (iteration e st)) = []
        /\ prev_message (state_of (iteration e st)) = prev_message st)
  /\ (forall e st,
        formed e st = None ->
        notified (trace_of (iteration e st)) = []
        /\ prev_message (state_of (iteration e st)) = prev_message st)
  /\ (forall e st m,
        formed e st = Some m ->
        m <> prev_message st ->
        notified (trace_of (iteration e st)) = [m]
        /\ prev_message (state_of (iteration e st)) = m)
  /\ (forall e1 e2 e3 st m m',
        formed e1 st = Some m ->
        m <> prev_message st ->
        let st1 := state_of (iteration e1 st) in
        formed e2 st1 = Some m' ->
        m' <> m ->
        let st2 := state_of (iteration e2 st1) in
        formed e3 st2 = Some m ->
        notified (trace_of (iteration e1 st)) = [m]
        /\ notified (trace_of (iteration e2 st1)) = [m']
        /\ notified (trace_of (iteration e3 st2)) = [m]).
Proof.
  assert (Hnew : forall e st m,
             formed e st = Some m ->
             m <> prev_message st ->
             notified (trace_of (iteration e st)) = [m]
             /\ prev_message (state_of (iteration e st)) = m).
  { intros e st m Hf Hne.
    destruct (iteration_summary e st) as (tr & st' & r & -> & _ & _ & _ & Hs).
    unfold trace_of, state_of; cbn [fst snd].
    rewrite Hf in Hs; destruct Hs as [-> ->].
    apply String.eqb_neq in Hne; rewrite Hne; auto. }
  split; [ | split; [ | split; [ | split; [ | split ] ] ] ].
  - intros e st tr st1 msg; rewrite try_block_poll.
    destruct (poll_spec e st) as (tr0 & r0 & -> & Hn & _ & He).
    destruct r0 as [[m |] | err]; cbn [prev_message current_timestamp].
    + destruct (negb (m =? prev_message st)); [ | discriminate ].
      rewrite send_message_eq.
      destruct (tg e); [ discriminate | ].
      intros [= <- <- _]; cbn [prev_message].
      rewrite notified_app, Hn; split; reflexivity.
    + discriminate.
    + intros [= _ _ ->]; discriminate (He _ eq_refl).
  - intros e st m.
    destruct (iteration_summary e st) as (tr & st' & r & -> & _ & _ & _ & Hf).
    unfold trace_of, state_of; cbn [fst snd].
    destruct (formed e st) as [m' |].
    + destruct Hf as [-> ->].
      destruct (m' =? prev_message st); cbn [In]; try clear bot_accepts; intuition.
    + destruct Hf as (-> & _); contradiction.
  - intros e st Hf0.
    destruct (iteration_summary e st) as (tr & st' & r & -> & _ & _ & _ & Hf).
    unfold trace_of, state_of; cbn [fst snd].
    rewrite Hf0, String.eqb_refl in Hf; propositional.
  - intros e st Hf0.
    destruct (iteration_summary e st) as (tr & st' & r & -> & _ & _ & _ & Hf).
    unfold trace_of, state_of; cbn [fst snd].
    rewrite Hf0 in Hf; propositional.
  - exact Hnew.
  - intros e1 e2 e3 st m m' Hf1 Hne1 st1 Hf2 Hne2 st2 Hf3.
    destruct (Hnew e1 st m Hf1 Hne1) as [Hn1 Hp1].
    fold st1 in Hp1.
    assert (Hne2' : m' <> prev_message st1) by congruence.
    destruct (Hnew e2 st1 m' Hf2 Hne2') as [Hn2 Hp2].
    fold st2 in Hp2.
    assert (Hne3 : m <> prev_message st2) by congruence.
    destruct (Hnew e3 st2 m Hf3 Hne3) as [Hn3 _].
    auto.
Qed.

(** C2 as the code has it. The cursor starts as the time read at startup.
    An iteration sets it to the [current_date] of the response when the
    fetch returned status 200 and a body that passed [check_response] and
    has that key, whatever the value is, and keeps it in every other case.
    Each iteration makes one request, whose [from_date] is the cursor when
    the cursor is truthy and the client's clock otherwise. *)
Theorem cursor_follows_supplied_date :
  (forall startup_time,
      current_timestamp (initial_state startup_time) = PyInt startup_time)
  /\ (forall e st,
        current_timestamp (state_of (iteration e st)) =
        match supplied_date e with
        | Some v => v
        | None => current_timestamp st
        end)
  /\ (forall e st,
        requested (trace_of (iteration e st)) =
        [Some (if truthy (current_timestamp st)
               then current_timestamp st
               else PyInt (now e))]).
Proof.
  split; [ reflexivity | split ].
  - intros e st.
    destruct (iteration_summary e st) as (tr & st' & r & -> & Hc & _).
    exact Hc.
  - intros e st.
    destruct (iteration_summary e st) as (tr & st' & r & -> & _ & Hr & _).
    exact Hr.
Qed.

(** ** More on [parse_status], [check_response], [get_api_answer] and
    [send_message] *)

(** What a returned [parse_status] tells about its argument. *)
Lemma parse_status_ok_inv (homework : pyval) (tr : list event)
  (message : string) :
  parse_status homework = (tr, Ok message) ->
  exists d name status verdict,
    homework = PyDict d
    /\ lookup "homework_name" d = Some name
    /\ lookup "status" d = Some (PyStr status)
    /\ lookup status HOMEWORK_VERDICTS = Some verdict
    /\ tr = []
    /\ message = "Изменился статус проверки работы " +++ dq
                 +++ py_str name +++ dq +++ ". " +++ verdict.
Proof.
  destruct homework;
    try (unfold parse_status, keys_guard, contains, interp, str_or;
         cbn [String.eqb Ascii.eqb Bool.eqb bind raise]; discriminate).
  - unfold parse_status, keys_guard, contains, interp, str_or.
    change ("homework_name" =? "") with false; cbv iota.
    destruct (occurs_in "homework_name" s); discriminate.
  - unfold parse_status, keys_guard, contains, interp, str_or.
    change ("homework_name" =? "") with false; cbv iota.
    destruct (existsb (is_str "homework_name") l); discriminate.
  - rewrite parse_status_dict.
    destruct (lookup "homework_name" d) as [name |] eqn:Hn;
      [ | discriminate ].
    destruct (lookup "status" d) as [v |] eqn:Hs; [ | discriminate ].
    destruct (status_guard_cases v)
      as [(status & verdict & -> & Hl & Hg) | [Hg | Hg]]; rewrite Hg;
      [ | discriminate | discriminate ].
    unfold verdict_of; cbn [hashable]; rewrite Hl.
    intros [= <- <-].
    exists d, name, status, verdict; repeat split; assumption.
Qed.

(** X1. [parse_status] returns only on a mapping that has both keys and
    whose status is a string of the verdict table; it then has logged
    nothing and the text is the one built from the name and the verdict.
    On every other value it raises. *)
Theorem parse_status_returns_iff (homework : pyval) (tr : list event)
  (message : string) :
  parse_status homework = (tr, Ok message)
  <-> exists d name status verdict,
      homework = PyDict d
      /\ lookup "homework_name" d = Some name
      /\ lookup "status" d = Some (PyStr status)
      /\ lookup status HOMEWORK_VERDICTS = Some verdict
      /\ tr = []
      /\ message = "Изменился статус проверки работы " +++ dq
                   +++ py_str name +++ dq +++ ". " +++ verdict.
Proof.
  split; [ apply parse_status_ok_inv | ].
  intros (d & name & status & verdict & -> & Hn & Hs & Hl & -> & ->).
  rewrite parse_status_dict, Hn, Hs, status_guard_str, Hl.
  unfold verdict_of; cbn [hashable]; rewrite Hl.
  reflexivity.
Qed.

(** X2. A record with both keys whose status is not a string: when the
    status can be hashed (null, a boolean, a number) it is reported as an
    undocumented status, with the logged [KeyError]; when it is a list or a
    mapping the membership test itself fails, with a [TypeError] and no log
    entry. *)
Theorem parse_status_status_not_str (d : list (string * pyval))
  (name v : pyval) :
  lookup "homework_name" d = Some name ->
  lookup "status" d = Some v ->
  (forall s, v <> PyStr s) ->
  parse_status (PyDict d) =
  if hashable v then
    ([EvLog ERROR unknown_status], Raise (KeyError (PyStr unknown_status)))
  else ([], Raise (TypeError (fault_text (Unhashable v)))).
Proof.
  intros Hn Hs Hv; rewrite parse_status_dict, Hn, Hs.
  destruct (hashable v) eqn:Hh.
  - rewrite (status_guard_other v Hh Hv); reflexivity.
  - rewrite (status_guard_unhashable v Hh); reflexivity.
Qed.

(** X3. On a homework that is not a mapping [parse_status] always raises,
    and what it raises follows from ['homework_name' in homework]: the test
    itself fails on [None], booleans and numbers; a string or list without
    it gets the logged [KeyError] of the key check; a string that contains
    it, or a list that has it as an element, passes the check and fails at
    [homework['homework_name']] with a [TypeError]. *)
Theorem parse_status_not_a_mapping (homework : pyval) :
  (forall d, homework <> PyDict d) ->
  parse_status homework =
  match contains "homework_name" homework with
  | inl f => ([], Raise (TypeError (fault_text f)))
  | inr false =>
      ([EvLog ERROR missing_keys], Raise (KeyError (PyStr missing_keys)))
  | inr true =>
      ([], Raise (TypeError (fault_text (BadSubscript homework "homework_name"))))
  end.
Proof.
  intros Hnd.
  unfold parse_status, keys_guard, str_or.
  change ("homework_name" =? "") with false; cbv iota.
  destruct homework; try reflexivity.
  - cbn [contains interp]; destruct (occurs_in "homework_name" s); reflexivity.
  - cbn [contains interp];
      destruct (existsb (is_str "homework_name") l); reflexivity.
  - exfalso; exact (Hnd d eq_refl).
Qed.

(** X4. [check_response] returns exactly on a mapping whose ['homeworks']
    is a list, and returns that list; it has then logged nothing, except
    the one debug entry for the empty list. *)
Theorem check_response_returns_iff (response : pyval) (tr : list event)
  (homeworks : list pyval) :
  check_response response = (tr, Ok homeworks)
  <-> exists d,
      response = PyDict d
      /\ lookup "homeworks" d = Some (PyList homeworks)
      /\ tr = match homeworks with
              | [] => [EvLog DEBUG "Нет новых статусов домашек"]
              | _ :: _ => []
              end.
Proof.
  split.
  - destruct response; try discriminate.
    unfold check_response.
    destruct (lookup "homeworks" d) as [v |] eqn:Hl; [ | discriminate ].
    destruct v; try discriminate.
    destruct l; intros [= <- <-]; exists d; auto.
  - intros (d & -> & Hl & ->).
    unfold check_response; rewrite Hl.
    destruct homeworks; reflexivity.
Qed.

(** X5. [get_api_answer] returns exactly on a 200 response whose body
    parses, and returns that body. A 200 response whose body does not parse
    raises the decoder's error as it is: it is not turned into
    [APIAnswerError] and nothing is logged, the request being the only
    event. *)
Theorem get_api_answer_returns_iff (e : env) (ts : pyval) :
  (forall body,
      snd (get_api_answer e ts) = Ok body <-> http e = Response 200 (inr body))
  /\ (forall text,
        http e = Response 200 (inl text) ->
        get_api_answer e ts =
        ([EvGet ENDPOINT HEADERS [("from_date", py_or ts (PyInt (now e)))]],
         Raise (JSONDecodeError text))).
Proof.
  destruct (get_api_answer_eq e ts) as (tr0 & r0 & Heq & Hcase).
  rewrite Heq; cbn [snd].
  destruct (http e) as [| code json].
  - destruct Hcase as (msg & -> & ->).
    split; [ intros body; split; discriminate | discriminate ].
  - destruct (code =? 200)%Z eqn:Hc.
    + apply Z.eqb_eq in Hc; subst code.
      destruct Hcase as [-> ->].
      split.
      * intros body; destruct json; split; try discriminate; congruence.
      * intros text [= ->]; reflexivity.
    + apply Z.eqb_neq in Hc.
      destruct Hcase as (msg & -> & ->).
      split; [ intros body; split; [ discriminate | congruence ] | congruence ].
Qed.

(** X6. [send_message] calls the bot exactly once, with the configured chat
    and the text it was given, after a debug entry; it returns exactly when
    the bot delivered, and every failure of the bot leaves it as a
    [SendMessageError] with the fixed text, logged at error level just
    before. *)
Theorem send_message_contract (e : env) (message : string) :
  (exists before after,
      fst (send_message e message) =
      before ++ [EvSend (TELEGRAM_CHAT_ID cfg) message] ++ after
      /\ notified before = [] /\ notified after = [])
  /\ (snd (send_message e message) = Ok tt <-> tg e = Delivered)
  /\ (forall err,
        snd (send_message e message) = Raise err ->
        err = SendMessageError send_failed
        /\ exists tr', fst (send_message e message)
                       = tr' ++ [EvLog ERROR send_failed]).
Proof.
  rewrite send_message_eq.
  destruct (tg e); cbn [fst snd]; split; [ | split | | split ].
  - eexists [_], [_]; repeat split.
  - propositional.
  - discriminate.
  - eexists [_], [_]; repeat split.
  - split; discriminate.
  - intros err [= <-]; split; [ reflexivity | ].
    eexists [_; _]; reflexivity.
Qed.

(** ** More on the loop *)

Lemma logs_only_ret {A} (a : A) : logs_only (ret a).
Proof. reflexivity. Qed.

Lemma logs_only_raise {A} (err : exn) : logs_only (@raise A err).
Proof. reflexivity. Qed.

Lemma logs_only_log (lvl : level) (msg : string) :
  logs_only (emit (EvLog lvl msg)).
Proof. reflexivity. Qed.

Lemma logs_only_bind {A B} (c : Eff A) (k : A -> Eff B) :
  logs_only c -> (forall a, logs_only (k a)) -> logs_only (bind c k).
Proof.
  unfold logs_only.
  destruct c as [tr [a | err]]; cbn [fst bind]; intros Hc Hk; [ | exact Hc ].
  specialize (Hk a); destruct (k a) as [tr' r]; cbn [fst] in *.
  rewrite forallb_app, Hc, Hk; reflexivity.
Qed.

Lemma logs_only_interp {A} (r : fault + A) : logs_only (interp r).
Proof. destruct r; reflexivity. Qed.

Lemma logs_only_subscript (c : pyval) (k : string) : logs_only (subscript c k).
Proof.
  destruct c; try reflexivity.
  cbn [subscript]; destruct (lookup k d); reflexivity.
Qed.

Lemma logs_only_verdict_of (v : pyval) : logs_only (verdict_of v).
Proof.
  unfold verdict_of; destruct (hashable v); [ | reflexivity ].
  destruct v; try reflexivity.
  destruct (lookup s HOMEWORK_VERDICTS); reflexivity.
Qed.

Lemma logs_only_get (response : pyval) (k : string) (default : pyval) :
  logs_only (get response k default).
Proof. destruct response; reflexivity. Qed.

Create HintDb logs.
#[local] Hint Resolve logs_only_ret logs_only_raise logs_only_log
  logs_only_interp logs_only_subscript logs_only_verdict_of logs_only_get
  : logs.
#[local] Hint Extern 2 (logs_only (bind _ _)) =>
  (apply logs_only_bind; [ | intros ? ]) : logs.
#[local] Hint Extern 3 (logs_only (if ?b then _ else _)) => destruct b : logs.
#[local] Hint Unfold logging.error logging.debug logging.critical : logs.

Lemma logs_only_parse_status (homework : pyval) :
  logs_only (parse_status homework).
Proof.
  unfold parse_status, keys_guard, status_guard.
  autounfold with logs.
  auto 20 with logs.
Qed.

Lemma logs_only_check_response (response : pyval) :
  logs_only (check_response response).
Proof.
  unfold check_response; autounfold with logs.
  destruct response; auto 10 with logs.
  destruct (lookup "homeworks" d) as [[] |]; auto 10 with logs.
Qed.

Lemma slept_app (tr tr' : list event) :
  slept (tr ++ tr') = slept tr ++ slept tr'.
Proof.
  induction tr as [| ev tr IH]; [ reflexivity | ].
  destruct ev; cbn [app slept]; rewrite IH; reflexivity.
Qed.

(** Log entries are neither requests, nor bot calls, nor sleeps. *)
Lemma logs_are_inert (tr : list event) :
  forallb is_log tr = true ->
  requested tr = [] /\ notified tr = [] /\ slept tr = [].
Proof.
  induction tr as [| ev tr IH]; [ auto | ].
  destruct ev; cbn [forallb is_log andb]; try discriminate.
  exact IH.
Qed.

(** The events of [poll]: the request, then log entries only. *)
Lemma poll_trace (e : env) (st : loop_state) :
  exists logs,
    trace_of (poll e st) =
    EvGet ENDPOINT HEADERS
      [("from_date", py_or (current_timestamp st) (PyInt (now e)))] :: logs
    /\ forallb is_log logs = true.
Proof.
  unfold poll, bindL, read_state, lift, set_current_timestamp, retL, trace_of.
  destruct (get_api_answer_eq e (current_timestamp st))
    as (trA & rA & Heq & Hcase).
  rewrite Heq; clear Heq.
  assert (HA : forallb is_log trA = true).
  { destruct (http e) as [| code json].
    - destruct Hcase as (msg & -> & _); reflexivity.
    - destruct (code =? 200)%Z.
      + destruct Hcase as [-> _]; reflexivity.
      + destruct Hcase as (msg & -> & _); reflexivity. }
  clear Hcase.
  destruct rA as [response | err];
    [ | eexists; split; [ reflexivity | exact HA ] ].
  pose proof (logs_only_check_response response) as HB.
  destruct (check_response response) as [trB [homeworks | err]];
    unfold logs_only in HB; cbn [fst] in HB;
    [ | eexists; split; [ reflexivity | ];
        cbn [app]; rewrite ?forallb_app, ?HA, ?HB; reflexivity ].
  pose proof (logs_only_get response "current_date" (current_timestamp st))
    as HG.
  destruct (get response "current_date" (current_timestamp st))
    as [trG [new_timestamp | err]];
    unfold logs_only in HG; cbn [fst] in HG;
    [ | eexists; split; [ reflexivity | ];
        cbn [app]; rewrite ?forallb_app, ?HA, ?HB, ?HG; reflexivity ].
  destruct homeworks as [| first rest].
  - eexists; split; [ reflexivity | ].
    cbn [app]; rewrite ?forallb_app, ?HA, ?HB, ?HG; reflexivity.
  - pose proof (logs_only_parse_status first) as HC.
    destruct (parse_status first) as [trC [message | err]];
      unfold logs_only in HC; cbn [fst] in HC;
      (eexists; split; [ reflexivity | ]);
      cbn [app]; rewrite ?forallb_app, ?HA, ?HB, ?HG, ?HC; reflexivity.
Qed.

(** The result of [poll], from the results of the three functions. *)
Lemma poll_result (e : env) (st : loop_state) :
  result_of (poll e st) =
  match snd (get_api_answer e (current_timestamp st)) with
  | Raise err => Raise err
  | Ok response =>
      match snd (check_response response) with
      | Raise err => Raise err
      | Ok [] => Ok None
      | Ok (first :: _) =>
          match snd (parse_status first) with
          | Ok message => Ok (Some message)
          | Raise err => Raise err
          end
      end
  end.
Proof.
  unfold poll, bindL, read_state, lift, set_current_timestamp, retL, result_of.
  destruct (get_api_answer e (current_timestamp st))
    as [trA [response | err]]; [ | reflexivity ].
  cbn [snd].
  destruct (check_response_cases response)
    as [(d & l & -> & Hl & Hok) | (_ & err & Hraise)].
  - destruct (check_response (PyDict d)) as [trB rB].
    cbn [snd] in *; subst rB.
    cbn [get ret].
    destruct l as [| first rest]; [ reflexivity | ].
    destruct (parse_status first) as [trC [message | err]]; reflexivity.
  - destruct (check_response response) as [trB rB].
    cbn [snd] in *; subst rB; reflexivity.
Qed.

(** An iteration, case by case on what [poll] gave. *)
Lemma iteration_cases (e : env) (st : loop_state) :
  iteration e st =
  let '(tr0, st1, r0) := poll e st in
  let sleep := [EvSleep RETRY_PERIOD] in
  let sent m :=
    {| current_timestamp := current_timestamp st1; prev_message := m |} in
  match r0 with
  | Ok None => (tr0 ++ sleep, st1, Ok tt)
  | Ok (Some m) =>
      if m =? prev_message st1 then (tr0 ++ sleep, st1, Ok tt)
      else
        (tr0 ++ fst (send_message e m)
             ++ match tg e with
                | Delivered => []
                | TelegramError =>
                    [EvLog ERROR "Сбой при отправке сообщения в Telegram"]
                end ++ sleep,
         sent m, Ok tt)
  | Raise err =>
      let m := failure_message err in
      if m =? prev_message st1 then (tr0 ++ sleep, st1, Ok tt)
      else
        (tr0 ++ [EvLog ERROR m] ++ fst (send_message e m) ++ sleep,
         sent m, snd (send_message e m))
  end.
Proof.
  unfold iteration, try_finally, try_except.
  rewrite try_block_poll.
  destruct (poll_spec e st) as (tr & r & Hp & _ & _ & He).
  rewrite Hp; clear Hp.
  cbn [current_timestamp prev_message lift emit].
  destruct r as [[m |] | err].
  - destruct (m =? prev_message st); cbn [negb]; [ reflexivity | ].
    rewrite send_message_eq.
    destruct (tg e); cbn [handler is_SendMessageError lift logging.error emit
                            fst snd app];
      rewrite <- ?app_assoc; reflexivity.
  - reflexivity.
  - unfold handler; rewrite (He err eq_refl).
    unfold bindL, read_state, set_prev_message, lift, retL, logging.error, emit.
    cbn [current_timestamp prev_message].
    fold (failure_message err).
    destruct (failure_message err =? prev_message st); cbn [negb].
    + cbn [app]; rewrite app_nil_r; reflexivity.
    + rewrite send_message_eq.
      destruct (tg e); cbn [fst snd app]; rewrite <- ?app_assoc; reflexivity.
Qed.

(** Between the request and the sleep an iteration only logs and calls
    the bot, at most once. *)
Lemma iteration_frame (e : env) (st : loop_state) :
  exists mid,
    trace_of (iteration e st) =
    EvGet ENDPOINT HEADERS
      [("from_date", py_or (current_timestamp st) (PyInt (now e)))]
      :: mid ++ [EvSleep RETRY_PERIOD]
    /\ requested mid = [] /\ slept mid = []
    /\ (length (notified mid) <= 1)%nat.
Proof.
  rewrite iteration_cases.
  destruct (poll_trace e st) as (logs & Ht & Hl).
  destruct (logs_are_inert logs Hl) as (Hr & Hn & Hs).
  destruct (poll e st) as [[tr0 st1] r0].
  unfold trace_of in *; cbn [fst snd] in Ht; subst tr0.
  cbv zeta.
  assert (Hquiet :
            exists mid : list event,
              EvGet ENDPOINT HEADERS
                [("from_date", py_or (current_timestamp st) (PyInt (now e)))]
                :: logs ++ [EvSleep RETRY_PERIOD]
              = EvGet ENDPOINT HEADERS
                  [("from_date", py_or (current_timestamp st) (PyInt (now e)))]
                  :: mid ++ [EvSleep RETRY_PERIOD]
              /\ requested mid = [] /\ slept mid = []
              /\ (length (notified mid) <= 1)%nat).
  { exists logs; rewrite Hr, Hs, Hn; cbn [length]; auto. }
  assert (Hsend :
            forall m pre post,
              forallb is_log pre = true -> forallb is_log post = true ->
              exists mid : list event,
                (EvGet ENDPOINT HEADERS
                   [("from_date",
                     py_or (current_timestamp st) (PyInt (now e)))] :: logs)
                ++ pre ++ fst (send_message e m) ++ post
                ++ [EvSleep RETRY_PERIOD]
                = EvGet ENDPOINT HEADERS
                    [("from_date",
                      py_or (current_timestamp st) (PyInt (now e)))]
                    :: mid ++ [EvSleep RETRY_PERIOD]
                /\ requested mid = [] /\ slept mid = []
                /\ (length (notified mid) <= 1)%nat).
  { intros m pre post Hpre Hpost.
    destruct (logs_are_inert pre Hpre) as (Hr1 & Hn1 & Hs1).
    destruct (logs_are_inert post Hpost) as (Hr2 & Hn2 & Hs2).
    exists (logs ++ pre ++ fst (send_message e m) ++ post).
    split; [ cbn [app]; rewrite <- !app_assoc; reflexivity | ].
    rewrite !requested_app, !slept_app, !notified_app.
    rewrite Hr, Hs, Hn, Hr1, Hs1, Hn1, Hr2, Hs2, Hn2.
    rewrite send_message_eq; destruct (tg e);
      cbn [fst requested slept notified app length]; auto. }
  destruct r0 as [[m |] | err].
  - destruct (m =? prev_message st1); cbn [fst]; [ exact Hquiet | ].
    apply (Hsend m []); [ reflexivity | destruct (tg e); reflexivity ].
  - exact Hquiet.
  - destruct (failure_message err =? prev_message st1); cbn [fst];
      [ exact Hquiet | ].
    apply (Hsend (failure_message err) [EvLog ERROR (failure_message err)] []);
      reflexivity.
Qed.

(** X7. Every iteration starts with the one HTTP request and ends with
    the one sleep of [RETRY_PERIOD] seconds, also when it lets an exception
    escape (the [finally] clause); in between it neither requests nor
    sleeps. *)
Theorem iteration_request_first_sleep_last (e : env) (st : loop_state) :
  exists mid,
    trace_of (iteration e st) =
    EvGet ENDPOINT HEADERS
      [("from_date", py_or (current_timestamp st) (PyInt (now e)))]
      :: mid ++ [EvSleep RETRY_PERIOD]
    /\ requested mid = [] /\ slept mid = [].
Proof.
  destruct (iteration_frame e st) as (mid & Ht & Hr & Hs & _).
  exists mid; auto.
Qed.

(** X8. An iteration lets an exception escape exactly when the part before
    the comparison raised, the error message it builds differs from
    [prev_message], and the bot fails on it; the exception is then the
    [SendMessageError] of that send. In particular a failed send of a
    status message never escapes. *)
Theorem iteration_raises_iff (e : env) (st : loop_state) (err : exn) :
  result_of (iteration e st) = Raise err
  <-> (exists error,
          result_of (poll e st) = Raise error
          /\ failure_message error <> prev_message st)
      /\ tg e = TelegramError
      /\ err = SendMessageError send_failed.
Proof.
  rewrite iteration_cases.
  destruct (poll_spec e st) as (tr & r & Hp & _).
  rewrite Hp; clear Hp.
  unfold result_of; cbv zeta; cbn [prev_message snd].
  destruct r as [[m |] | error].
  - split.
    + destruct (m =? prev_message st); discriminate.
    + intros ((error & H & _) & _); discriminate.
  - split; [ discriminate | intros ((error & H & _) & _); discriminate ].
  - destruct (failure_message error =? prev_message st) eqn:Hm.
    + apply String.eqb_eq in Hm.
      split; [ discriminate | ].
      intros ((error' & [= <-] & Hne) & _); contradiction.
    + apply String.eqb_neq in Hm.
      rewrite send_message_eq.
      destruct (tg e); cbn [snd].
      * split; [ discriminate | intros (_ & H & _); discriminate ].
      * split.
        -- intros [= <-]; repeat split; eauto.
        -- intros (_ & _ & ->); reflexivity.
Qed.

(** The loop ends early only with the [SendMessageError] of a failing
    bot. *)
Lemma loop_result_inv (envs : list env) :
  forall st err,
    result_of (loop envs st) = Some err ->
    err = SendMessageError send_failed
    /\ exists e, In e envs /\ tg e = TelegramError.
Proof.
  induction envs as [| e envs IH]; intros st err; [ discriminate | ].
  cbn [loop].
  destruct (iteration_summary e st) as (tr & st' & r & -> & _ & _ & Hraise & _).
  destruct r as [[] | err'].
  - specialize (IH st' err).
    destruct (loop envs st') as [[tr' st''] r']; unfold result_of in *.
    cbn [snd] in *.
    intros H; destruct (IH H) as (-> & e' & Hin & Htg).
    split; [ reflexivity | exists e'; split; [ right; exact Hin | exact Htg ] ].
  - unfold result_of; cbn [snd]; intros [= <-].
    destruct (Hraise err' eq_refl) as [-> Htg].
    split; [ reflexivity | exists e; split; [ left; reflexivity | exact Htg ] ].
Qed.

(** X9. With the three variables set, [main] never exits by itself. If
    the library refuses the token, it ends at once with that
    [InvalidToken], before any event. Once the bot is built, after any
    number of iterations it is still running, or it has ended with the
    [SendMessageError] of an iteration in which the bot failed; while the
    bot delivers, it keeps running whatever the API does. *)
Theorem main_ends_only_on_failed_send (startup_time : Z) (envs : list env) :
  ~ some_absent ->
  (~ bot_built -> main startup_time envs = ([], InvalidToken))
  /\ (bot_built ->
      ((exists st, snd (main startup_time envs) = Running st)
       \/ (exists st, snd (main startup_time envs)
                      = Crashed (SendMessageError send_failed) st)
          /\ exists e, In e envs /\ tg e = TelegramError)
      /\ ((forall e, In e envs -> tg e = Delivered) ->
          exists st, snd (main startup_time envs) = Running st)).
Proof.
  intros Hset.
  destruct (main_cases startup_time envs)
    as [(Habs & _) | [(_ & Hnb & Hm) | (_ & Hb & Hm)]];
    [ contradiction | | ].
  - split; [ intros _; exact Hm | intros Hb; contradiction ].
  - split; [ intros Hnb; contradiction | intros _ ].
    rewrite Hm; clear Hm.
    pose proof (loop_result_inv envs (initial_state startup_time)) as Hinv.
    destruct (loop envs (initial_state startup_time)) as [[tr st] r].
    unfold result_of in Hinv; cbn [snd] in *.
    destruct r as [err |].
    + destruct (Hinv err eq_refl) as (-> & e & Hin & Htg).
      split; [ right; eauto | ].
      intros Hall; rewrite (Hall e Hin) in Htg; discriminate.
    + split; [ left | intros _ ]; eauto.
Qed.

(** X10. Over any run of the loop there are at most as many bot calls as
    requests and at most as many requests as iterations offered; every
    request is followed by one sleep of [RETRY_PERIOD] seconds; and while
    no exception has escaped, every iteration has made its request. *)
Theorem loop_counts (envs : list env) (st : loop_state) :
  (length (notified (trace_of (loop envs st)))
   <= length (requested (trace_of (loop envs st))))%nat
  /\ (length (requested (trace_of (loop envs st))) <= length envs)%nat
  /\ slept (trace_of (loop envs st))
     = repeat RETRY_PERIOD (length (requested (trace_of (loop envs st))))
  /\ (result_of (loop envs st) = None ->
      length (requested (trace_of (loop envs st))) = length envs).
Proof.
  revert st; induction envs as [| e envs IH]; intros st.
  - cbn; repeat split; lia.
  - cbn [loop].
    destruct (iteration_frame e st) as (mid & Ht & Hr & Hs & Hn).
    destruct (iteration e st) as [[tr st'] r].
    unfold trace_of in Ht; cbn [fst] in Ht; subst tr.
    assert (Hreq : forall tl,
               requested ((EvGet ENDPOINT HEADERS
                             [("from_date",
                               py_or (current_timestamp st) (PyInt (now e)))]
                             :: mid ++ [EvSleep RETRY_PERIOD]) ++ tl)
               = lookup "from_date"
                   [("from_date",
                     py_or (current_timestamp st) (PyInt (now e)))]
                 :: requested tl).
    { intros tl; cbn [app requested].
      rewrite <- app_assoc, requested_app, Hr; reflexivity. }
    assert (Hsl : forall tl,
               slept ((EvGet ENDPOINT HEADERS
                         [("from_date",
                           py_or (current_timestamp st) (PyInt (now e)))]
                         :: mid ++ [EvSleep RETRY_PERIOD]) ++ tl)
               = RETRY_PERIOD :: slept tl).
    { intros tl; cbn [app slept].
      rewrite <- app_assoc, slept_app, Hs; reflexivity. }
    assert (Hnt : forall tl,
               notified ((EvGet ENDPOINT HEADERS
                            [("from_date",
                              py_or (current_timestamp st) (PyInt (now e)))]
                            :: mid ++ [EvSleep RETRY_PERIOD]) ++ tl)
               = notified mid ++ notified tl).
    { intros tl; cbn [app notified].
      rewrite <- app_assoc, notified_app; reflexivity. }
    destruct r as [[] | err].
    + specialize (IH st').
      destruct (loop envs st') as [[tr' st''] r'].
      unfold trace_of, result_of in *; cbn [fst snd] in *.
      rewrite Hreq, Hsl, Hnt, length_app.
      destruct IH as (IH1 & IH2 & IH3 & IH4).
      cbn [length repeat].
      repeat split; try lia.
      * rewrite IH3; reflexivity.
      * intros H; rewrite (IH4 H); reflexivity.
    + unfold trace_of, result_of; cbn [fst snd].
      rewrite <- (app_nil_r (_ :: mid ++ _)).
      rewrite Hreq, Hsl, Hnt, app_nil_r.
      cbn [length repeat requested slept].
      repeat split; try lia; discriminate.
Qed.

Lemma last_cons_default (l : list string) (a d : string) :
  last (a :: l) d = last l a.
Proof.
  revert a d; induction l as [| b l IH]; intros a d; [ reflexivity | ].
  change (last (a :: b :: l) d) with (last (b :: l) d).
  rewrite (IH b d), (IH b a); reflexivity.
Qed.

Lemma last_app_default (l1 l2 : list string) (d : string) :
  last (l1 ++ l2) d = last l2 (last l1 d).
Proof.
  revert d; induction l1 as [| a l1 IH]; intros d; [ reflexivity | ].
  cbn [app].
  rewrite last_cons_default, IH, (last_cons_default l1 a d); reflexivity.
Qed.

(** X11. After any run of the loop [prev_message] is the last text that
    was handed to the bot, delivered or not, and the value it started with
    when the bot was never called. *)
Theorem prev_message_is_last_notified (envs : list env) (st : loop_state) :
  prev_message (state_of (loop envs st))
  = last (notified (trace_of (loop envs st))) (prev_message st).
Proof.
  revert st; induction envs as [| e envs IH]; intros st; [ reflexivity | ].
  cbn [loop].
  destruct (iteration_summary e st) as (tr & st' & r & -> & _ & _ & _ & Hf).
  assert (Hstep : prev_message st' = last (notified tr) (prev_message st)).
  { destruct (formed e st) as [m |].
    - destruct Hf as [-> ->].
      destruct (m =? prev_message st) eqn:Hm; [ | reflexivity ].
      apply String.eqb_eq in Hm; exact Hm.
    - destruct Hf as (-> & -> & _); reflexivity. }
  destruct r as [[] | err].
  - specialize (IH st').
    destruct (loop envs st') as [[tr' st''] r'].
    unfold state_of, trace_of in *; cbn [fst snd] in *.
    rewrite notified_app, last_app_default, <- Hstep; exact IH.
  - exact Hstep.
Qed.

Lemma formed_eq (e : env) (st : loop_state) :
  formed e st =
  match result_of (poll e st) with
  | Ok message => message
  | Raise error => Some (failure_message error)
  end.
Proof.
  unfold formed, result_of.
  destruct (poll e st) as [[tr st1] [message | error]]; reflexivity.
Qed.

Lemma get_api_answer_snd_200 (e : env) (ts : pyval) (json : string + pyval) :
  http e = Response 200 json ->
  snd (get_api_answer e ts) =
  match json with
  | inl text => Raise (JSONDecodeError text)
  | inr body => Ok body
  end.
Proof.
  intros Hh; unfold get_api_answer; rewrite Hh.
  destruct json; reflexivity.
Qed.

(** The result of [get_api_answer] only depends on what the transport does
    and on the [from_date] it sends. *)
Lemma get_api_answer_snd_ext (e1 e2 : env) (ts1 ts2 : pyval) :
  http e1 = http e2 ->
  py_or ts1 (PyInt (now e1)) = py_or ts2 (PyInt (now e2)) ->
  snd (get_api_answer e1 ts1) = snd (get_api_answer e2 ts2).
Proof.
  intros Hh Ht; unfold get_api_answer; cbv zeta.
  rewrite Hh, Ht.
  destruct (http e2) as [| code json]; [ reflexivity | ].
  destruct (negb (code =? 200)%Z); [ reflexivity | ].
  destruct json; reflexivity.
Qed.

(** A message an iteration forms is never the empty string. *)
Lemma formed_nonempty (e : env) (st : loop_state) (m : string) :
  formed e st = Some m -> m <> "".
Proof.
  rewrite formed_eq, poll_result.
  destruct (snd (get_api_answer e (current_timestamp st)))
    as [response | err]; [ | intros [= <-]; discriminate ].
  destruct (snd (check_response response)) as [[| first rest] | err];
    [ discriminate | | intros [= <-]; discriminate ].
  destruct (parse_status first) as [trC [message | err]] eqn:Hp; cbn [snd];
    [ | intros [= <-]; discriminate ].
  intros [= <-].
  destruct (parse_status_ok_inv _ _ _ Hp)
    as (d & name & status & verdict & _ & _ & _ & _ & _ & ->).
  discriminate.
Qed.

(** X12. As long as [prev_message] is still the empty string it starts
    with, the message an iteration forms is handed to the bot: the first
    notification is never suppressed. *)
Theorem first_message_is_sent (e : env) (st : loop_state) (m : string) :
  prev_message st = "" ->
  formed e st = Some m ->
  notified (trace_of (iteration e st)) = [m].
Proof.
  intros Hprev Hf.
  pose proof (formed_nonempty e st m Hf) as Hne.
  destruct (iteration_summary e st) as (tr & st' & r & -> & _ & _ & _ & Hs).
  unfold trace_of; cbn [fst].
  rewrite Hf, Hprev in Hs; destruct Hs as [_ ->].
  apply String.eqb_neq in Hne; rewrite Hne; reflexivity.
Qed.

(** X13. When the API answers an iteration exactly as it answered the one
    before, and the cursor was truthy, the second iteration forms the same
    message as the first, or none as the first, and does not call the bot:
    an unchanged status and a lasting outage are each reported once. *)
Theorem same_answer_twice_is_silent (e1 e2 : env) (st : loop_state) :
  http e1 = http e2 ->
  truthy (current_timestamp st) = true ->
  formed e2 (state_of (iteration e1 st)) = formed e1 st
  /\ notified (trace_of (iteration e2 (state_of (iteration e1 st)))) = [].
Proof.
  intros Hh Ht.
  destruct (iteration_summary e1 st)
    as (tr1 & st1 & r1 & Heq1 & Hc1 & _ & _ & Hf1).
  rewrite Heq1; unfold state_of, trace_of; cbn [fst snd].
  assert (Hsame : formed e2 st1 = formed e1 st).
  { rewrite !formed_eq, !poll_result.
    assert (Hget : snd (get_api_answer e2 (current_timestamp st1))
                   = snd (get_api_answer e1 (current_timestamp st))).
    { destruct (http e1) as [| code json] eqn:H1.
      - apply get_api_answer_snd_ext; [ congruence | ].
        unfold supplied_date in Hc1; rewrite H1 in Hc1; rewrite Hc1.
        unfold py_or; rewrite Ht; reflexivity.
      - destruct (code =? 200)%Z eqn:Hcode.
        + apply Z.eqb_eq in Hcode; subst code.
          rewrite (get_api_answer_snd_200 e2 _ json (eq_sym Hh)).
          rewrite (get_api_answer_snd_200 e1 _ json H1).
          reflexivity.
        + apply get_api_answer_snd_ext; [ congruence | ].
          assert (Hnone : supplied_date e1 = None).
          { unfold supplied_date; rewrite H1.
            destruct json as [text | []]; try reflexivity.
            rewrite Hcode; reflexivity. }
          rewrite Hnone in Hc1; rewrite Hc1.
          unfold py_or; rewrite Ht; reflexivity. }
    rewrite Hget; reflexivity. }
  split; [ exact Hsame | ].
  destruct (iteration_summary e2 st1) as (tr2 & st2 & r2 & -> & _ & _ & _ & Hf2).
  cbn [fst].
  rewrite Hsame in Hf2.
  destruct (formed e1 st) as [m |].
  - destruct Hf1 as [Hp1 _]; destruct Hf2 as [_ ->].
    rewrite Hp1, String.eqb_refl; reflexivity.
  - propositional.
Qed.

(** X14. Of a validated response only the first homework counts: the
    message formed is the one [parse_status] gives for it, or the error
    message of what [parse_status] raised on it, whatever the other records
    are; and an empty list forms no message, so the bot is not called and
    [prev_message] stays. *)
Theorem only_first_homework_is_reported (e : env) (st : loop_state)
  (d : list (string * pyval)) (homeworks : list pyval) :
  http e = Response 200 (inr (PyDict d)) ->
  lookup "homeworks" d = Some (PyList homeworks) ->
  formed e st =
  match homeworks with
  | [] => None
  | first :: _ =>
      Some match snd (parse_status first) with
           | Ok message => message
           | Raise error => failure_message error
           end
  end
  /\ (homeworks = [] ->
      notified (trace_of (iteration e st)) = []
      /\ prev_message (state_of (iteration e st)) = prev_message st).
Proof.
  intros Hh Hl.
  assert (Hf : formed e st =
               match homeworks with
               | [] => None
               | first :: _ =>
                   Some match snd (parse_status first) with
                        | Ok message => message
                        | Raise error => failure_message error
                        end
               end).
  { rewrite formed_eq, poll_result.
    rewrite (get_api_answer_snd_200 e _ _ Hh).
    unfold check_response; rewrite Hl.
    destruct homeworks as [| first rest]; [ reflexivity | ].
    cbn [bind ret snd app].
    destruct (snd (parse_status first)); reflexivity. }
  split; [ exact Hf | ].
  intros ->.
  destruct (iteration_summary e st) as (tr & st' & r & -> & _ & _ & _ & Hs).
  unfold trace_of, state_of; cbn [fst snd].
  rewrite Hf in Hs; propositional.
Qed.

(** X15. When a variable is unset, the critical entry of [check_tokens]
    names each unset variable and no variable that is set. *)
Theorem check_tokens_names_the_unset :
  some_absent ->
  exists msg,
    fst check_tokens = [EvLog CRITICAL msg]
    /\ occurs_in "PRACTICUM_TOKEN" msg = is_None (PRACTICUM_TOKEN cfg)
    /\ occurs_in "TELEGRAM_TOKEN" msg = is_None (TELEGRAM_TOKEN cfg)
    /\ occurs_in "TELEGRAM_CHAT_ID" msg = is_None (TELEGRAM_CHAT_ID cfg).
Proof.
  unfold some_absent, check_tokens.
  destruct (PRACTICUM_TOKEN cfg), (TELEGRAM_TOKEN cfg), (TELEGRAM_CHAT_ID cfg);
    cbn [filter map fst snd is_None];
    intros Habs;
    try (eexists; split; [ reflexivity | vm_compute; auto ]).
  destruct Habs as [H | [H | H]]; discriminate.
Qed.

Lemma requests_to_app (tr tr' : list event) :
  requests_to (tr ++ tr') = requests_to tr ++ requests_to tr'.
Proof.
  induction tr as [| ev tr IH]; [ reflexivity | ].
  destruct ev; cbn [app requests_to]; rewrite IH; reflexivity.
Qed.

Lemma requests_to_none (tr : list event) :
  requested tr = [] -> requests_to tr = [].
Proof.
  induction tr as [| ev tr IH]; [ reflexivity | ].
  destruct ev; cbn [requested requests_to]; try exact IH; discriminate.
Qed.

Lemma loop_requests_to (envs : list env) :
  forall st,
    Forall (fun ua => ua = (ENDPOINT, HEADERS))
           (requests_to (trace_of (loop envs st))).
Proof.
  induction envs as [| e envs IH]; intros st; [ constructor | ].
  cbn [loop].
  destruct (iteration_frame e st) as (mid & Ht & Hr & _).
  destruct (iteration e st) as [[tr st'] r].
  unfold trace_of in Ht; cbn [fst] in Ht; subst tr.
  assert (Hone :
            requests_to
              (EvGet ENDPOINT HEADERS
                 [("from_date", py_or (current_timestamp st) (PyInt (now e)))]
                 :: mid ++ [EvSleep RETRY_PERIOD])
            = [(ENDPOINT, HEADERS)]).
  { cbn [requests_to].
    rewrite requests_to_app, (requests_to_none mid Hr); reflexivity. }
  destruct r as [[] | err].
  - specialize (IH st').
    destruct (loop envs st') as [[tr' st''] r'].
    unfold trace_of in *; cbn [fst] in *.
    rewrite requests_to_app, Hone.
    constructor; [ reflexivity | exact IH ].
  - unfold trace_of; cbn [fst]; rewrite Hone.
    constructor; [ reflexivity | constructor ].
Qed.

(** X16. Every request [main] makes goes to [ENDPOINT] and carries the
    header [Authorization: OAuth token] with the configured
    [PRACTICUM_TOKEN]. *)
Theorem main_requests_are_authorized (startup_time : Z) (envs : list env)
  (token : string) :
  PRACTICUM_TOKEN cfg = Some token ->
  Forall (fun ua => ua = (ENDPOINT, "OAuth " +++ token))
         (requests_to (fst (main startup_time envs))).
Proof.
  intros Htoken.
  pose proof (loop_requests_to envs (initial_state startup_time)) as Hl.
  unfold HEADERS in Hl; rewrite Htoken in Hl.
  destruct (main_cases startup_time envs)
    as [(_ & ->) | [(_ & _ & ->) | (_ & _ & ->)]].
  - destruct check_tokens_cases as [(_ & msg & ->) | (_ & ->)]; constructor.
  - constructor.
  - destruct (loop envs (initial_state startup_time)) as [[tr st] r].
    exact Hl.
Qed.

(** X17. What the user is told about a failure. When the request fails
    (the transport raises, or the status is not 200) the message formed is
    [Сбой в работе программы: ] followed by the very text logged at error
    level. When the response is a mapping without ['homeworks'], the
    exception is a [KeyError], whose [str] is the [repr] of its argument:
    the message formed carries the [repr] of the logged text, not the
    text. *)
Theorem failure_notification_text (e : env) (st : loop_state) :
  ((http e = RequestException
    \/ exists code json, http e = Response code json /\ code <> 200%Z) ->
   exists msg,
     In (EvLog ERROR msg) (trace_of (poll e st))
     /\ formed e st = Some ("Сбой в работе программы: " +++ msg))
  /\ (forall d,
        http e = Response 200 (inr (PyDict d)) ->
        lookup "homeworks" d = None ->
        let msg :=
          "Отсутствует ключ homeworks в ответе API: " +++ py_str (PyDict d) in
        In (EvLog ERROR msg) (trace_of (poll e st))
        /\ formed e st
           = Some ("Сбой в работе программы: " +++ repr (PyStr msg))).
Proof.
  split.
  - intros Hfail.
    unfold formed, trace_of, poll, bindL, read_state, lift.
    destruct (get_api_answer_eq e (current_timestamp st))
      as (trA & rA & -> & Hcase).
    destruct (http e) as [| code json].
    + destruct Hcase as (msg & -> & ->).
      exists msg; split; [ right; left; reflexivity | reflexivity ].
    + destruct Hfail as [H | (c & j & [= <- <-] & Hne)]; [ discriminate | ].
      apply Z.eqb_neq in Hne; rewrite Hne in Hcase.
      destruct Hcase as (msg & -> & ->).
      exists msg; split; [ right; left; reflexivity | reflexivity ].
  - intros d Hh Hl msg.
    unfold formed, trace_of, poll, bindL, read_state, lift.
    destruct (get_api_answer_eq e (current_timestamp st))
      as (trA & rA & -> & Hcase).
    rewrite Hh in Hcase; cbn [Z.eqb Pos.eqb] in Hcase.
    destruct Hcase as [-> ->].
    unfold check_response; rewrite Hl.
    split; [ right; left; reflexivity | reflexivity ].
Qed.

End Program.

(** ** Concrete runs *)

Lemma after_failed_send_reached :
  state_of
    (iteration sample_repr sample_fault_text sample_cfg
       (finds "reviewing" 2000 1001 TelegramError) (initial_state 1000))
  = after_failed_send.
Proof.
  vm_compute; reflexivity.
Qed.

(** Witness of C1: the same status found twice in a row. *)
Lemma dedup_invariant_witness :
  let e := finds "reviewing" 2000 1001 Delivered in
  let it := iteration sample_repr sample_fault_text sample_cfg in
  let st := initial_state 1000 in
  notified (trace_of (it e (state_of (it e st)))) = []
  /\ (length
        (notified (trace_of (it e st) ++ trace_of (it e (state_of (it e st)))))
      <= 1)%nat.
Proof.
  intros e it st.
  apply (proj2 (dedup_invariant sample_repr sample_fault_text sample_cfg
                  sample_bot_accepts)
           e e st reviewing_message);
    vm_compute; reflexivity.
Defined.

(** Witness of C3: the record of the spec's example. *)
Lemma parse_status_verdict_witness :
  exists verdict,
    lookup "approved" HOMEWORK_VERDICTS = Some verdict
    /\ parse_status sample_repr sample_fault_text (hw1 "approved") =
       ([], Ok ("Изменился статус проверки работы " +++ dq
                +++ py_str sample_repr (PyStr "hw1") +++ dq +++ ". "
                +++ verdict)).
Proof.
  apply (proj1 (parse_status_verdict_or_KeyError sample_repr sample_fault_text)
           _ (PyStr "hw1") "approved");
    [ reflexivity | reflexivity | left; reflexivity ].
Defined.

(** Witness of C4: a response that is a list, not a mapping. *)
Lemma check_response_shape_witness :
  let message_error :=
    "Тип ответа API - не словарь: " +++ py_str sample_repr (PyList []) in
  check_response sample_repr (PyList []) =
  ([EvLog ERROR message_error], Raise (TypeError message_error)).
Proof.
  apply (proj1 (check_response_shape sample_repr) (PyList [])).
  intros d; discriminate.
Defined.

(** Witness of C5: a 200 response with a body. *)
Lemma get_api_answer_APIAnswerError_witness :
  snd (get_api_answer sample_repr sample_cfg (nothing_new 2000 1001)
         (PyInt 1000))
  = Ok (PyDict [("homeworks", PyList []); ("current_date", PyInt 1001)]).
Proof.
  apply (proj2 (proj2 (get_api_answer_APIAnswerError sample_repr sample_cfg
                         (nothing_new 2000 1001) (PyInt 1000)))).
  reflexivity.
Defined.

(** Witness of C6: a mapping with ['homework_name'] and without ['status']
    passes the key check. *)
Lemma keys_guard_tests_homework_name_only_witness :
  keys_guard sample_fault_text (PyDict [("homework_name", PyStr "hw1")])
  = ([], Ok tt).
Proof.
  apply (proj1 (proj2 (proj2 (keys_guard_tests_homework_name_only
                                sample_repr sample_fault_text)))).
  discriminate.
Defined.

(** Witness of C10: the same mapping fails at [homework['status']]. *)
Lemma parse_status_missing_key_KeyError_witness :
  parse_status sample_repr sample_fault_text
    (PyDict [("homework_name", PyStr "hw1")])
  = ([], Raise (KeyError (PyStr "status"))).
Proof.
  apply (proj1 (parse_status_missing_key_KeyError sample_repr sample_fault_text)
           _ (PyStr "hw1"));
    reflexivity.
Defined.

(** Witness of C8: without [TELEGRAM_TOKEN], [main] exits before polling. *)
Lemma check_tokens_gates_main_witness :
  let run :=
    main sample_repr sample_fault_text broken_cfg sample_bot_accepts 1000
      [finds "reviewing" 2000 1001 Delivered] in
  run = (fst (check_tokens broken_cfg),
         Exited "Проверьте, заданы ли все токены")
  /\ requested (fst run) = []
  /\ notified (fst run) = [].
Proof.
  intros run.
  apply (proj1 (proj2 (proj2 (proj2 (proj2
           (check_tokens_gates_main sample_repr sample_fault_text
              broken_cfg sample_bot_accepts)))))).
  right; left; reflexivity.
Defined.

(** Witness of C7: an outage whose notification cannot be sent either ends
    the loop with the [SendMessageError] of the send. *)
Lemma loop_failure_handling_witness :
  let e := outage 2000 TelegramError in
  let st := initial_state 1000 in
  result_of (iteration sample_repr sample_fault_text sample_cfg e st)
  = Raise (SendMessageError send_failed)
  /\ result_of
       (loop sample_repr sample_fault_text sample_cfg
          [e; finds "reviewing" 2600 1001 Delivered] st)
     = Some (SendMessageError send_failed).
Proof.
  intros e st.
  pose proof (loop_failure_handling sample_repr sample_fault_text sample_cfg
                e st) as (_ & Hother & Hstop).
  eassert (Htry : try_block sample_repr sample_fault_text sample_cfg e st = _)
    by (vm_compute; reflexivity).
  destruct (Hother _ _ _ Htry eq_refl) as [_ Hnew].
  destruct Hnew as (Hit & _ & Hsend); [ vm_compute; discriminate | ].
  rewrite (Hsend eq_refl) in Hit.
  split.
  - rewrite Hit; reflexivity.
  - rewrite (Hstop _ _ _ _ Hit); reflexivity.
Defined.

(** Witness of the amended C9: the review message whose send fails, the
    approval, and the review message again. *)
Lemma prev_message_set_before_send_witness :
  let it := iteration sample_repr sample_fault_text sample_cfg in
  let e1 := finds "reviewing" 2000 1001 TelegramError in
  let e2 := finds "approved" 2600 1002 Delivered in
  let e3 := finds "reviewing" 3200 1003 Delivered in
  let st := initial_state 1000 in
  notified (trace_of (it e1 st)) = [reviewing_message]
  /\ notified (trace_of (it e2 (state_of (it e1 st)))) = [approved_message]
  /\ notified (trace_of (it e3 (state_of (it e2 (state_of (it e1 st))))))
     = [reviewing_message].
Proof.
  intros it e1 e2 e3 st.
  apply (proj2 (proj2 (proj2 (proj2 (proj2
           (prev_message_set_before_send sample_repr sample_fault_text
              sample_cfg)))))
           e1 e2 e3 st reviewing_message approved_message);
    vm_compute; solve [ reflexivity | discriminate ].
Defined.

(** With a set but malformed [TELEGRAM_TOKEN], [main] ends when it builds
    the bot, before the first request. *)
Lemma refused_token_ends_main :
  main sample_repr sample_fault_text refused_cfg sample_bot_accepts 1000
    [finds "reviewing" 2000 1001 Delivered]
  = ([], InvalidToken).
Proof.
  vm_compute; reflexivity.
Qed.

(** Counterexample to C3 as stated: the record
    [{'homework_name': 'hw1', 'status': []}] has a status that is not in the
    verdict table, and [parse_status] raises a [TypeError] on it, not a
    [KeyError]: [[] not in HOMEWORK_VERDICTS] cannot hash the list. *)
Lemma parse_status_list_status_TypeError :
  parse_status sample_repr sample_fault_text hw1_list_status
  = ([], Raise (TypeError (sample_fault_text (Unhashable (PyList [])))))
  /\ is_KeyError (TypeError (sample_fault_text (Unhashable (PyList []))))
     = false.
Proof.
  split; reflexivity.
Qed.

(** Counterexample to C9 as stated: the send of the review message fails in
    the first iteration; the second iteration sends the approval; the third
    finds the homework in review again and hands the very text whose send
    had failed to the bot again. *)
Lemma failed_message_sent_again_later :
  tg (finds "reviewing" 2000 1001 TelegramError) = TelegramError
  /\ notified
       (fst (main sample_repr sample_fault_text sample_cfg sample_bot_accepts 1000
               [ finds "reviewing" 2000 1001 TelegramError;
                 finds "approved" 2600 1002 Delivered;
                 finds "reviewing" 3200 1003 Delivered ]))
     = [reviewing_message; approved_message; reviewing_message].
Proof.
  split; vm_compute; reflexivity.
Qed.

(** Counterexample to C2 as stated: started at time 1000, the first poll
    meets HTTP 500, so the second request still carries the startup time
    the client computed; the server then supplies the earlier date 5, which
    the third request carries; the server then supplies 0, and the fourth
    request carries the client's clock, 3800. *)
Lemma cursor_client_time_and_backwards :
  requested
    (fst (main sample_repr sample_fault_text sample_cfg sample_bot_accepts 1000
            [ outage 2000 Delivered;
              nothing_new 2600 5;
              nothing_new 3200 0;
              nothing_new 3800 3801 ]))
  = [Some (PyInt 1000); Some (PyInt 1000); Some (PyInt 5); Some (PyInt 3800)].
Proof.
  vm_compute; reflexivity.
Qed.

(** Witness of X2: a record whose status is [null]. *)
Lemma parse_status_status_not_str_witness :
  parse_status sample_repr sample_fault_text
    (PyDict [("homework_name", PyStr "hw1"); ("status", PyNone)])
  = ([EvLog ERROR unknown_status], Raise (KeyError (PyStr unknown_status))).
Proof.
  apply (parse_status_status_not_str sample_repr sample_fault_text
           _ (PyStr "hw1") PyNone);
    [ reflexivity | reflexivity | discriminate ].
Defined.

(** Witness of X3: a string that contains ['homework_name']. *)
Lemma parse_status_not_a_mapping_witness :
  parse_status sample_repr sample_fault_text (PyStr "homework_name: hw1")
  = ([], Raise (TypeError
                  (sample_fault_text
                     (BadSubscript (PyStr "homework_name: hw1")
                        "homework_name")))).
Proof.
  apply (parse_status_not_a_mapping sample_repr sample_fault_text
           (PyStr "homework_name: hw1")).
  intros d; discriminate.
Defined.

(** Witness of X5: a 200 response that is not JSON. *)
Lemma get_api_answer_returns_iff_witness :
  get_api_answer sample_repr sample_cfg (garbled 2000) (PyInt 1000)
  = ([EvGet ENDPOINT (HEADERS sample_cfg) [("from_date", PyInt 1000)]],
     Raise (JSONDecodeError "Expecting value")).
Proof.
  apply (proj2 (get_api_answer_returns_iff sample_repr sample_cfg
                  (garbled 2000) (PyInt 1000))).
  reflexivity.
Defined.

(** Witness of X9: an outage and a new status, with a token the library
    accepts and a bot that delivers. *)
Lemma main_ends_only_on_failed_send_witness :
  exists st,
    snd (main sample_repr sample_fault_text sample_cfg sample_bot_accepts 1000
           [outage 2000 Delivered; finds "reviewing" 2600 1001 Delivered])
    = Running st.
Proof.
  apply (proj2 (main_ends_only_on_failed_send sample_repr sample_fault_text
                  sample_cfg sample_bot_accepts 1000
                  [outage 2000 Delivered;
                   finds "reviewing" 2600 1001 Delivered]
                  ltac:(intros [H | [H | H]]; discriminate))).
  - eexists; split; reflexivity.
  - intros e [<- | [<- | []]]; reflexivity.
Defined.

(** Witness of X10: two iterations without an escaping exception. *)
Lemma loop_counts_witness :
  length
    (requested
       (trace_of
          (loop sample_repr sample_fault_text sample_cfg
             [outage 2000 Delivered; finds "reviewing" 2600 1001 TelegramError]
             (initial_state 1000))))
  = 2%nat.
Proof.
  apply (proj2 (proj2 (proj2
           (loop_counts sample_repr sample_fault_text sample_cfg
              [outage 2000 Delivered;
               finds "reviewing" 2600 1001 TelegramError]
              (initial_state 1000))))).
  vm_compute; reflexivity.
Defined.

(** Witness of X12: the first status found after startup. *)
Lemma first_message_is_sent_witness :
  notified
    (trace_of
       (iteration sample_repr sample_fault_text sample_cfg
          (finds "reviewing" 2000 1001 TelegramError) (initial_state 1000)))
  = [reviewing_message].
Proof.
  apply (first_message_is_sent sample_repr sample_fault_text sample_cfg);
    [ reflexivity | vm_compute; reflexivity ].
Defined.

(** Witness of X13: an outage that lasts for two iterations. *)
Lemma same_answer_twice_is_silent_witness :
  let it := iteration sample_repr sample_fault_text sample_cfg in
  let st := initial_state 1000 in
  formed sample_repr sample_fault_text sample_cfg (outage 2600 Delivered)
    (state_of (it (outage 2000 Delivered) st))
  = formed sample_repr sample_fault_text sample_cfg (outage 2000 Delivered) st
  /\ notified
       (trace_of
          (it (outage 2600 Delivered) (state_of (it (outage 2000 Delivered) st))))
     = [].
Proof.
  intros it st.
  apply (same_answer_twice_is_silent sample_repr sample_fault_text sample_cfg);
    reflexivity.
Defined.

(** Witness of X14: the second record, which is no mapping, is not looked
    at. *)
Lemma only_first_homework_is_reported_witness :
  formed sample_repr sample_fault_text sample_cfg (finds_two 2000 1001)
    (initial_state 1000)
  = Some approved_message.
Proof.
  exact (proj1 (only_first_homework_is_reported sample_repr sample_fault_text
                  sample_cfg (finds_two 2000 1001) (initial_state 1000)
                  _ _ eq_refl eq_refl)).
Defined.

(** Witness of X15: only [TELEGRAM_TOKEN] is unset. *)
Lemma check_tokens_names_the_unset_witness :
  exists msg,
    fst (check_tokens broken_cfg) = [EvLog CRITICAL msg]
    /\ occurs_in "PRACTICUM_TOKEN" msg = false
    /\ occurs_in "TELEGRAM_TOKEN" msg = true
    /\ occurs_in "TELEGRAM_CHAT_ID" msg = false.
Proof.
  apply (check_tokens_names_the_unset broken_cfg).
  right; left; reflexivity.
Defined.

(** Witness of X16: the requests of a run of two iterations. *)
Lemma main_requests_are_authorized_witness :
  Forall (fun ua => ua = (ENDPOINT, "OAuth " +++ "practicum-token"))
    (requests_to
       (fst (main sample_repr sample_fault_text sample_cfg sample_bot_accepts 1000
               [outage 2000 Delivered;
                finds "reviewing" 2600 1001 Delivered]))).
Proof.
  apply (main_requests_are_authorized sample_repr sample_fault_text
           sample_cfg sample_bot_accepts).
  reflexivity.
Defined.

(** Witness of X17: the message formed during an outage. *)
Lemma failure_notification_text_witness :
  exists msg,
    In (EvLog ERROR msg)
      (trace_of
         (poll sample_repr sample_fault_text sample_cfg
            (outage 2000 Delivered) (initial_state 1000)))
    /\ formed sample_repr sample_fault_text sample_cfg
         (outage 2000 Delivered) (initial_state 1000)
       = Some ("Сбой в работе программы: " +++ msg).
Proof.
  apply (proj1 (failure_notification_text sample_repr sample_fault_text
                  sample_cfg (outage 2000 Delivered) (initial_state 1000))).
  right; exists 500%Z, (inl "not JSON"); split; [ reflexivity | discriminate ].
Defined.
